(** * rct_analytics: the front end of the interaction-analysis application

    A shallow embedding of the TypeScript front end: the data model of
    [types/index.ts], the settings page ([SettingsPage.tsx]), the analysis
    page ([AnalysisPage.tsx]) with the HTTP client of [services/api.ts],
    and the results page ([ResultsPage.tsx]).

    Conventions of the embedding.
    - A JavaScript string is its UTF-8 byte sequence ([string]).
    - A finite JavaScript number is the rational it denotes ([Q]); fields
      that the pages only ever fill through [parseInt] are [Z]; array
      lengths are [nat].
    - [localStorage] is a finite map from keys to strings.
    - An [async] handler is split at each [await]: the part that runs when
      the handler is called, and the part that runs when the awaited
      request settles.  React state is threaded explicitly, and an effect
      follows the state it depends on at once. *)

From Stdlib Require Import Ascii String QArith Lqa.
From stdpp Require Import base option list strings gmap sorting.

Open Scope string_scope.

(** ** Data model ([types/index.ts])

    One module per interface, so that every field keeps its source name.
    [sample_values: any[]] is a list of strings; the two fields of type
    [Record<string, any>] ([preview_data] of an upload response, [summary]
    of an analysis result), which no page reads, are left out. *)

Inductive DataType := numeric | categorical | ordinal | text.

Module ColumnInfo.
Record t := {
  name : string;
  data_type : DataType;
  unique_count : Z;
  missing_count : Z;
  missing_rate : Q;
  sample_values : list string
}.
End ColumnInfo.

Module UploadResponse.
Record t := {
  job_id : string;
  filename : string;
  columns : list ColumnInfo.t;
  message : string
}.
End UploadResponse.

Module VariableMapping.
Record t := {
  moderators : list string;
  outcomes : list string;
  intervention : string
}.
End VariableMapping.

Module DataProcessingSettings.
Record t := {
  center_outcomes : bool;
  center_moderators : bool;
  ordinal_outcomes : list string;
  run_sensitivity : bool;
  seed : Z
}.
End DataProcessingSettings.

Module AnalysisSettings.
Record t := {
  variable_mapping : VariableMapping.t;
  data_processing : DataProcessingSettings.t;
  fdr_alpha : Q;
  min_sample_size : Z;
  generate_plots : bool;
  max_plots : Z
}.
End AnalysisSettings.

(** [job_id] is [uploadResult.job_id] of whatever object [localStorage]
    held: [None] is JavaScript's [undefined]. *)
Module AnalysisRequest.
Record t := {
  job_id : option string;
  settings : AnalysisSettings.t
}.
End AnalysisRequest.

Module SimpleSlope.
Record t := {
  slope : Q;
  p_value : Q;
  ci_lower : Q;
  ci_upper : Q;
  cohens_d : Q
}.
End SimpleSlope.

Module InteractionResult.
Record t := {
  moderator : string;
  outcome : string;
  n_used : Z;
  median : Q;
  mean : Q;
  std : Q;
  beta_interaction : Q;
  p_interaction : Q;
  q_interaction : Q;
  partial_eta2 : Q;
  simple_slope_low : SimpleSlope.t;
  simple_slope_high : SimpleSlope.t;
  r_squared : Q;
  adj_r_squared : Q
}.
End InteractionResult.

(** [export type AnalysisStatus = 'pending' | 'running' | 'completed' | 'failed'] *)
Inductive AnalysisStatus := pending | running | completed | failed.

(** The string literal each member of the union type stands for. *)
Definition AnalysisStatus_literal (s : AnalysisStatus) : string :=
  match s with
  | pending => "pending"
  | running => "running"
  | completed => "completed"
  | failed => "failed"
  end.

Definition AnalysisStatus_all : list AnalysisStatus :=
  [pending; running; completed; failed].

(** TypeScript types are erased: at run time the [status] field holds
    whatever string the server sent, so the records carry a [string]. *)
Module AnalysisResult.
Record t := {
  job_id : string;
  status : string;
  created_at : string;
  completed_at : option string;
  results : list InteractionResult.t;
  notes : list string;
  logs : string;
  figures : list string;
  error_message : option string
}.
End AnalysisResult.

Module JobStatus.
Record t := {
  job_id : string;
  status : string;
  progress : Q;
  message : string;
  created_at : string;
  updated_at : string
}.
End JobStatus.

(** ** JavaScript primitives *)

(** Truthiness of a string: only the empty string is falsy. *)
Definition truthy (s : string) : bool :=
  match s with
  | EmptyString => false
  | String _ _ => true
  end.

(** [x < y] on numbers. *)
Definition Qltb (x y : Q) : bool := negb (Qle_bool y x).

(** [JSON.stringify(v)], [JSON.stringify(v, null, 2)] and [JSON.parse(s)]
    at a given TypeScript type.  [parse] is [None] where [JSON.parse]
    throws a [SyntaxError], as it does on the empty text.  The embedding
    is typed: a text that parses to a value of another shape, which
    JavaScript would hand on unchecked, is [None] as well. *)
Class JSON (A : Type) := {
  stringify : A -> string;
  stringify_indent2 : A -> string;
  parse : string -> option A;
  parse_empty : parse "" = None
}.

(** A value survives serialization when parsing its text gives it back. *)
Definition survives `{JSON A} (to_text : A -> string) (v : A) : Prop :=
  parse (to_text v) = Some v.

(** [array.includes(x)] on strings. *)
Definition includes (l : list string) (x : string) : bool :=
  existsb (String.eqb x) l.

(** [[...new Set(array)]]: the elements in the order of their first
    occurrence, each once. *)
Fixpoint distinct_from (seen : list string) (l : list string) : list string :=
  match l with
  | [] => []
  | x :: rest =>
      if includes seen x then distinct_from seen rest
      else x :: distinct_from (x :: seen) rest
  end.

Definition distinct (l : list string) : list string := distinct_from [] l.

(** [array.sort()] on strings rearranges the array; the order it puts the
    elements in (by UTF-16 code units) is not part of the class. *)
Class ArraySort := {
  sort : list string -> list string;
  sort_permutation : forall l, sort l ≡ₚ l
}.

(** A [File] of the DOM. *)
Module File.
Record t := {
  name : string;
  content : string
}.
End File.

(** [encodeURIComponent]: every byte of the UTF-8 form is kept when it is
    one of [A-Z a-z 0-9 - _ . ! ~ * ' ( )] and written [%XX] (upper-case
    hexadecimal) otherwise. *)
Definition in_range (lo hi : N) (c : ascii) : bool :=
  ((lo <=? N_of_ascii c) && (N_of_ascii c <=? hi))%N.

Definition unreserved (c : ascii) : bool :=
  in_range 65 90 c || in_range 97 122 c || in_range 48 57 c ||
  bool_decide (c ∈ ["-"; "_"; "."; "!"; "~"; "*"; "'"; "("; ")"]%char).

Definition hex_char (n : N) : ascii :=
  ascii_of_N (if (n <? 10)%N then 48 + n else 55 + n).

Definition hex_value (c : ascii) : option N :=
  if in_range 48 57 c then Some (N_of_ascii c - 48)%N
  else if in_range 65 70 c then Some (N_of_ascii c - 55)%N
  else if in_range 97 102 c then Some (N_of_ascii c - 87)%N
  else None.

Fixpoint encodeURIComponent (s : string) : string :=
  match s with
  | EmptyString => EmptyString
  | String c rest =>
      if unreserved c then String c (encodeURIComponent rest)
      else String "%" (String (hex_char (N_of_ascii c / 16))
             (String (hex_char (N_of_ascii c mod 16)) (encodeURIComponent rest)))
  end.

(** What the browser does with the part of a [data:] URL after the comma:
    [%XX] becomes the byte [XX], any other byte stands for itself. *)
Fixpoint percent_decode (s : string) : string :=
  match s with
  | EmptyString => EmptyString
  | String c rest =>
      match rest with
      | String h (String l rest') =>
          match (if Ascii.eqb c "%" then hex_value h else None), hex_value l with
          | Some a, Some b => String (ascii_of_N (16 * a + b)) (percent_decode rest')
          | _, _ => String c (percent_decode rest)
          end
      | _ => String c (percent_decode rest)
      end
  end.

Fixpoint after_first_comma (s : string) : option string :=
  match s with
  | EmptyString => None
  | String c rest => if Ascii.eqb c "," then Some rest else after_first_comma rest
  end.

(** The bytes of the file a [data:<mediatype>,<data>] link downloads
    (no [;base64] media type occurs in this program). *)
Definition data_url_body (href : string) : option string :=
  percent_decode <$> after_first_comma href.

(** ** The browser around a page *)

Inductive Toast :=
  | toast_success (msg : string)
  | toast_error (msg : string).

Module Browser.
Record t := {
  localStorage : gmap string string;
  location : string;                    (* the route last navigated to *)
  toasts : list Toast;                  (* oldest first *)
  downloads : list (string * string);   (* (download name, href) clicked *)
  console : list string
}.

(** [localStorage.setItem(key, value)] *)
Definition setItem (key value : string) (b : t) : t :=
  {| localStorage := <[key := value]> (localStorage b); location := location b;
     toasts := toasts b; downloads := downloads b; console := console b |}.

(** [localStorage.getItem(key)]; [None] is [null]. *)
Definition getItem (key : string) (b : t) : option string :=
  localStorage b !! key.

Definition toast (x : Toast) (b : t) : t :=
  {| localStorage := localStorage b; location := location b;
     toasts := toasts b ++ [x]; downloads := downloads b; console := console b |}.

Definition navigate (path : string) (b : t) : t :=
  {| localStorage := localStorage b; location := path;
     toasts := toasts b; downloads := downloads b; console := console b |}.

Definition click_download (file href : string) (b : t) : t :=
  {| localStorage := localStorage b; location := location b;
     toasts := toasts b; downloads := downloads b ++ [(file, href)];
     console := console b |}.

Definition console_error (msg : string) (b : t) : t :=
  {| localStorage := localStorage b; location := location b;
     toasts := toasts b; downloads := downloads b; console := console b ++ [msg] |}.
End Browser.

(** ** The settings page ([SettingsPage.tsx]) *)

Module SettingsPage.

Record State := {
  uploadResult : option UploadResponse.t;
  settings : AnalysisSettings.t
}.

(** The two [useState] initial values. *)
Definition initial_settings : AnalysisSettings.t :=
  {| AnalysisSettings.variable_mapping :=
       {| VariableMapping.moderators := [];
          VariableMapping.outcomes := [];
          VariableMapping.intervention := "" |};
     AnalysisSettings.data_processing :=
       {| DataProcessingSettings.center_outcomes := false;
          DataProcessingSettings.center_moderators := true;
          DataProcessingSettings.ordinal_outcomes := [];
          DataProcessingSettings.run_sensitivity := false;
          DataProcessingSettings.seed := 123 |};
     AnalysisSettings.fdr_alpha := 0.05;
     AnalysisSettings.min_sample_size := 30;
     AnalysisSettings.generate_plots := true;
     AnalysisSettings.max_plots := 20 |}.

Definition initial : State :=
  {| uploadResult := None; settings := initial_settings |}.

Definition setSettings (s : AnalysisSettings.t) (st : State) : State :=
  {| uploadResult := uploadResult st; settings := s |}.

(** [{ ...prev, variable_mapping: vm }] *)
Definition with_variable_mapping (vm : VariableMapping.t)
    (prev : AnalysisSettings.t) : AnalysisSettings.t :=
  {| AnalysisSettings.variable_mapping := vm;
     AnalysisSettings.data_processing := AnalysisSettings.data_processing prev;
     AnalysisSettings.fdr_alpha := AnalysisSettings.fdr_alpha prev;
     AnalysisSettings.min_sample_size := AnalysisSettings.min_sample_size prev;
     AnalysisSettings.generate_plots := AnalysisSettings.generate_plots prev;
     AnalysisSettings.max_plots := AnalysisSettings.max_plots prev |}.

(** [name.match(/^[lo-hi]$/)]: the name is one character in the class. *)
Definition match_one_of (lo hi : ascii) (name : string) : bool :=
  match name with
  | String c EmptyString => in_range (N_of_ascii lo) (N_of_ascii hi) c
  | _ => false
  end.

Definition defaultModerators (columns : list ColumnInfo.t) : list string :=
  map ColumnInfo.name
    (List.filter (fun col => match_one_of "B" "F" (ColumnInfo.name col)) columns).

Definition defaultOutcomes (columns : list ColumnInfo.t) : list string :=
  map ColumnInfo.name
    (List.filter (fun col => match_one_of "G" "R" (ColumnInfo.name col)) columns).

(** [columns.find(col => col.name === 'S')?.name || ''] *)
Definition defaultIntervention (columns : list ColumnInfo.t) : string :=
  match List.find (fun col => String.eqb (ColumnInfo.name col) "S") columns with
  | Some col => if truthy (ColumnInfo.name col) then ColumnInfo.name col else ""
  | None => ""
  end.

Definition default_mapping (columns : list ColumnInfo.t) : VariableMapping.t :=
  {| VariableMapping.moderators := defaultModerators columns;
     VariableMapping.outcomes := defaultOutcomes columns;
     VariableMapping.intervention := defaultIntervention columns |}.

(** The [useEffect] run on mount.  [None]: [JSON.parse] threw inside the
    effect. *)
Definition on_mount `{JSON UploadResponse.t} (st : State) (b : Browser.t)
    : option (State * Browser.t) :=
  match Browser.getItem "uploadResult" b with
  | Some savedResult =>
      if truthy savedResult then
        match parse savedResult with
        | Some result =>
            Some ({| uploadResult := Some result;
                     settings := with_variable_mapping
                                   (default_mapping (UploadResponse.columns result))
                                   (settings st) |}, b)
        | None => None
        end
      else Some (st, Browser.navigate "/" b)
  | None => Some (st, Browser.navigate "/" b)
  end.

Inductive MappingField := field_moderators | field_outcomes | field_intervention.

(** [[field]: field === 'intervention' ? value[0] || '' : value] *)
Definition handleVariableMappingChange (field : MappingField)
    (value : list string) (st : State) : State :=
  let vm := AnalysisSettings.variable_mapping (settings st) in
  let vm' :=
    match field with
    | field_moderators =>
        {| VariableMapping.moderators := value;
           VariableMapping.outcomes := VariableMapping.outcomes vm;
           VariableMapping.intervention := VariableMapping.intervention vm |}
    | field_outcomes =>
        {| VariableMapping.moderators := VariableMapping.moderators vm;
           VariableMapping.outcomes := value;
           VariableMapping.intervention := VariableMapping.intervention vm |}
    | field_intervention =>
        {| VariableMapping.moderators := VariableMapping.moderators vm;
           VariableMapping.outcomes := VariableMapping.outcomes vm;
           VariableMapping.intervention := hd "" value |}
    end in
  setSettings (with_variable_mapping vm' (settings st)) st.

(** The [onChange] of a moderator check box and of an outcome check box. *)
Definition toggle_moderator (col : string) (checked : bool) (st : State) : State :=
  let ms := VariableMapping.moderators (AnalysisSettings.variable_mapping (settings st)) in
  handleVariableMappingChange field_moderators
    (if checked then ms ++ [col]
     else List.filter (fun m => negb (String.eqb m col)) ms) st.

Definition toggle_outcome (col : string) (checked : bool) (st : State) : State :=
  let os := VariableMapping.outcomes (AnalysisSettings.variable_mapping (settings st)) in
  handleVariableMappingChange field_outcomes
    (if checked then os ++ [col]
     else List.filter (fun o => negb (String.eqb o col)) os) st.

(** The [onChange] of the three number inputs; [value] is the number
    [parseFloat] or [parseInt] made of the typed text. *)
Definition change_fdr_alpha (value : Q) (st : State) : State :=
  let prev := settings st in
  setSettings
    {| AnalysisSettings.variable_mapping := AnalysisSettings.variable_mapping prev;
       AnalysisSettings.data_processing := AnalysisSettings.data_processing prev;
       AnalysisSettings.fdr_alpha := value;
       AnalysisSettings.min_sample_size := AnalysisSettings.min_sample_size prev;
       AnalysisSettings.generate_plots := AnalysisSettings.generate_plots prev;
       AnalysisSettings.max_plots := AnalysisSettings.max_plots prev |} st.

Definition change_min_sample_size (value : Z) (st : State) : State :=
  let prev := settings st in
  setSettings
    {| AnalysisSettings.variable_mapping := AnalysisSettings.variable_mapping prev;
       AnalysisSettings.data_processing := AnalysisSettings.data_processing prev;
       AnalysisSettings.fdr_alpha := AnalysisSettings.fdr_alpha prev;
       AnalysisSettings.min_sample_size := value;
       AnalysisSettings.generate_plots := AnalysisSettings.generate_plots prev;
       AnalysisSettings.max_plots := AnalysisSettings.max_plots prev |} st.

Definition change_max_plots (value : Z) (st : State) : State :=
  let prev := settings st in
  setSettings
    {| AnalysisSettings.variable_mapping := AnalysisSettings.variable_mapping prev;
       AnalysisSettings.data_processing := AnalysisSettings.data_processing prev;
       AnalysisSettings.fdr_alpha := AnalysisSettings.fdr_alpha prev;
       AnalysisSettings.min_sample_size := AnalysisSettings.min_sample_size prev;
       AnalysisSettings.generate_plots := AnalysisSettings.generate_plots prev;
       AnalysisSettings.max_plots := value |} st.

Definition handleSaveSettings `{JSON AnalysisSettings.t}
    (st : State) (b : Browser.t) : Browser.t :=
  Browser.toast (toast_success "設定を保存しました")
    (Browser.setItem "analysisSettings" (stringify (settings st)) b).

(** When [JSON.parse] throws, the handler is abandoned before any state
    is set. *)
Definition handleLoadSettings `{JSON AnalysisSettings.t}
    (st : State) (b : Browser.t) : State * Browser.t :=
  match Browser.getItem "analysisSettings" b with
  | Some savedSettings =>
      if truthy savedSettings then
        match parse savedSettings with
        | Some s => (setSettings s st, Browser.toast (toast_success "設定を読み込みました") b)
        | None => (st, b)
        end
      else (st, Browser.toast (toast_error "保存された設定が見つかりません") b)
  | None => (st, Browser.toast (toast_error "保存された設定が見つかりません") b)
  end.

Definition handleExportSettings `{JSON AnalysisSettings.t}
    (st : State) (b : Browser.t) : Browser.t :=
  let dataStr := stringify_indent2 (settings st) in
  let dataUri := "data:application/json;charset=utf-8," ++ encodeURIComponent dataStr in
  let exportFileDefaultName := "analysis_settings.json" in
  Browser.click_download exportFileDefaultName dataUri b.

(** [file] is the content of [event.target.files?.[0]], handed to the
    [FileReader]; the body of [reader.onload] is run on it. *)
Definition handleImportSettings `{JSON AnalysisSettings.t}
    (file : option string) (st : State) (b : Browser.t) : State * Browser.t :=
  match file with
  | None => (st, b)
  | Some content =>
      match parse content with
      | Some importedSettings =>
          (setSettings importedSettings st,
           Browser.toast (toast_success "設定をインポートしました") b)
      | None => (st, Browser.toast (toast_error "設定ファイルの読み込みに失敗しました") b)
      end
  end.

Definition handleNext `{JSON AnalysisSettings.t}
    (st : State) (b : Browser.t) : Browser.t :=
  let vm := AnalysisSettings.variable_mapping (settings st) in
  if (length (VariableMapping.moderators vm) =? 0)%nat then
    Browser.toast (toast_error "モデレーターを1つ以上選択してください") b
  else if (length (VariableMapping.outcomes vm) =? 0)%nat then
    Browser.toast (toast_error "アウトカムを1つ以上選択してください") b
  else if negb (truthy (VariableMapping.intervention vm)) then
    Browser.toast (toast_error "介入フラグを選択してください") b
  else
    Browser.navigate "/analysis"
      (Browser.setItem "analysisSettings" (stringify (settings st)) b).

(** A click on the check box of column [col]: the box is drawn checked
    when the role [includes] the column, and the click hands its negation
    to the [onChange]. *)
Definition click_moderator (col : string) (st : State) : State :=
  toggle_moderator col
    (negb (includes (VariableMapping.moderators
                       (AnalysisSettings.variable_mapping (settings st))) col)) st.

Definition click_outcome (col : string) (st : State) : State :=
  toggle_outcome col
    (negb (includes (VariableMapping.outcomes
                       (AnalysisSettings.variable_mapping (settings st))) col)) st.

(** The [onChange] of the intervention [select]; the first option has the
    empty value. *)
Definition select_intervention (value : string) (st : State) : State :=
  handleVariableMappingChange field_intervention [value] st.

End SettingsPage.

(** ** The HTTP client ([services/api.ts])

    Each function issues one request and resolves to [response.data]; the
    request is what the embedding records. *)

Module Api.

Inductive Method := GET | POST.

Record Request := {
  method : Method;
  url : string;
  data : option AnalysisRequest.t
}.

(** How an awaited call settles: [Rejected] carries
    [error.response?.data?.detail || error.message]. *)
Inductive Settled (A : Type) :=
  | Fulfilled (response_data : A)
  | Rejected (detail : string).
Arguments Fulfilled {A} _.
Arguments Rejected {A} _.

(** [api.post('/api/run', request)] *)
Definition runAnalysis (request : AnalysisRequest.t) : Request :=
  {| method := POST; url := "/api/run"; data := Some request |}.

(** [api.get(`/api/run/${jobId}/status`)] *)
Definition getJobStatus (jobId : string) : Request :=
  {| method := GET; url := "/api/run/" ++ jobId ++ "/status"; data := None |}.

(** [api.post(`/api/run/${jobId}/cancel`)] *)
Definition cancelJob (jobId : string) : Request :=
  {| method := POST; url := "/api/run/" ++ jobId ++ "/cancel"; data := None |}.

(** [api.post('/api/upload', formData, { headers: { 'Content-Type':
    'multipart/form-data' } })], the form holding the file under [file]. *)
Record FormRequest := {
  form_url : string;
  form_file : File.t;
  form_content_type : string
}.

Definition uploadFile (file : File.t) : FormRequest :=
  {| form_url := "/api/upload"; form_file := file;
     form_content_type := "multipart/form-data" |}.

(** [api.get(`/api/result/${jobId}`)] *)
Definition getAnalysisResult (jobId : string) : Request :=
  {| method := GET; url := "/api/result/" ++ jobId; data := None |}.

(** [api.get(`/api/result/${jobId}/figures`)] *)
Definition getFigureList (jobId : string) : Request :=
  {| method := GET; url := "/api/result/" ++ jobId ++ "/figures"; data := None |}.

End Api.

(** ** The upload page ([UploadPage.tsx]) *)

Module UploadPage.

Record State := {
  uploading : bool;
  uploadResult : option UploadResponse.t
}.

Definition initial : State := {| uploading := false; uploadResult := None |}.

(** [onDrop] up to its [await]: the request it sends, if any. *)
Definition onDrop (acceptedFiles : list File.t) (st : State)
    : State * option Api.FormRequest :=
  match acceptedFiles with
  | [] => (st, None)
  | file :: _ =>
      ({| uploading := true; uploadResult := uploadResult st |},
       Some (Api.uploadFile file))
  end.

(** [onDrop] after its [await], with the [finally] block. *)
Definition upload_settled `{JSON UploadResponse.t}
    (r : Api.Settled UploadResponse.t) (st : State) (b : Browser.t)
    : State * Browser.t :=
  match r with
  | Api.Fulfilled result =>
      ({| uploading := false; uploadResult := Some result |},
       Browser.navigate "/settings"
         (Browser.setItem "uploadResult" (stringify result)
            (Browser.toast (toast_success "ファイルのアップロードが完了しました") b)))
  | Api.Rejected detail =>
      ({| uploading := false; uploadResult := uploadResult st |},
       Browser.toast (toast_error ("アップロードエラー: " ++ detail)) b)
  end.

End UploadPage.

(** ** The analysis page ([AnalysisPage.tsx]) *)

Module AnalysisPage.

Record State := {
  settings : option AnalysisSettings.t;
  jobStatus : option JobStatus.t;
  isRunning : bool;
  progress : Q
}.

Definition initial : State :=
  {| settings := None; jobStatus := None; isRunning := false; progress := 0 |}.

Definition setSettings (s : option AnalysisSettings.t) (st : State) : State :=
  {| settings := s; jobStatus := jobStatus st;
     isRunning := isRunning st; progress := progress st |}.

Definition setJobStatus (j : option JobStatus.t) (st : State) : State :=
  {| settings := settings st; jobStatus := j;
     isRunning := isRunning st; progress := progress st |}.

Definition setIsRunning (r : bool) (st : State) : State :=
  {| settings := settings st; jobStatus := jobStatus st;
     isRunning := r; progress := progress st |}.

Definition setProgress (p : Q) (st : State) : State :=
  {| settings := settings st; jobStatus := jobStatus st;
     isRunning := isRunning st; progress := p |}.

(** The page together with its surroundings: the browser, the requests
    sent so far (oldest first) and the number of awaited calls of each
    kind that have not settled yet. *)
Record World := {
  page : State;
  browser : Browser.t;
  sent : list Api.Request;
  starts_in_flight : nat;
  polls_in_flight : nat;
  cancels_in_flight : nat
}.

Definition on_page (f : State -> State) (w : World) : World :=
  {| page := f (page w); browser := browser w; sent := sent w;
     starts_in_flight := starts_in_flight w;
     polls_in_flight := polls_in_flight w;
     cancels_in_flight := cancels_in_flight w |}.

Definition on_browser (f : Browser.t -> Browser.t) (w : World) : World :=
  {| page := page w; browser := f (browser w); sent := sent w;
     starts_in_flight := starts_in_flight w;
     polls_in_flight := polls_in_flight w;
     cancels_in_flight := cancels_in_flight w |}.

Inductive Call := call_start | call_poll | call_cancel.

(** Issue a request and start waiting for it. *)
Definition send (c : Call) (r : Api.Request) (w : World) : World :=
  {| page := page w; browser := browser w; sent := sent w ++ [r];
     starts_in_flight := (if c is call_start then S else id) (starts_in_flight w);
     polls_in_flight := (if c is call_poll then S else id) (polls_in_flight w);
     cancels_in_flight := (if c is call_cancel then S else id) (cancels_in_flight w) |}.

(** One awaited call of kind [c] settles; [None] when none is in flight. *)
Definition settle (c : Call) (w : World) : option World :=
  let take (n : nat) (k : nat -> World) : option World :=
    match n with O => None | S n' => Some (k n') end in
  match c with
  | call_start =>
      take (starts_in_flight w) (fun n =>
        {| page := page w; browser := browser w; sent := sent w;
           starts_in_flight := n; polls_in_flight := polls_in_flight w;
           cancels_in_flight := cancels_in_flight w |})
  | call_poll =>
      take (polls_in_flight w) (fun n =>
        {| page := page w; browser := browser w; sent := sent w;
           starts_in_flight := starts_in_flight w; polls_in_flight := n;
           cancels_in_flight := cancels_in_flight w |})
  | call_cancel =>
      take (cancels_in_flight w) (fun n =>
        {| page := page w; browser := browser w; sent := sent w;
           starts_in_flight := starts_in_flight w;
           polls_in_flight := polls_in_flight w; cancels_in_flight := n |})
  end.

(** The first [useEffect]: settings are read from [localStorage].
    [None]: [JSON.parse] threw inside the effect. *)
Definition on_mount `{JSON AnalysisSettings.t} (w : World) : option World :=
  match Browser.getItem "analysisSettings" (browser w) with
  | Some savedSettings =>
      if truthy savedSettings then
        s ← parse savedSettings; Some (on_page (setSettings (Some s)) w)
      else Some (on_browser (Browser.navigate "/settings") w)
  | None => Some (on_browser (Browser.navigate "/settings") w)
  end.

(** [jobStatus?.job_id], when truthy. *)
Definition current_job_id (st : State) : option string :=
  match jobStatus st with
  | Some j => if truthy (JobStatus.job_id j) then Some (JobStatus.job_id j) else None
  | None => None
  end.

(** The second [useEffect] keeps an interval exactly while
    [isRunning && jobStatus?.job_id]; its callback polls that job.  The
    clean-up of the effect clears the interval as soon as the condition
    fails. *)
Definition interval_job (st : State) : option string :=
  if isRunning st then current_job_id st else None.

(** The interval callback up to its [await]. *)
Definition poll_begin (w : World) : option World :=
  match interval_job (page w) with
  | Some job_id => Some (send call_poll (Api.getJobStatus job_id) w)
  | None => None
  end.

(** The interval callback after its [await]. *)
Definition poll_settled (r : Api.Settled JobStatus.t) (w : World) : World :=
  match r with
  | Api.Fulfilled status =>
      let w := on_page (setJobStatus (Some status)) w in
      let w := on_page (setProgress (JobStatus.progress status * 100)) w in
      if String.eqb (JobStatus.status status) "completed" then
        on_browser (Browser.navigate "/results")
          (on_browser (Browser.toast (toast_success "分析が完了しました"))
             (on_page (setIsRunning false) w))
      else if String.eqb (JobStatus.status status) "failed" then
        on_browser (Browser.toast (toast_error "分析中にエラーが発生しました"))
          (on_page (setIsRunning false) w)
      else w
  | Api.Rejected _ =>
      on_browser (Browser.console_error "ステータス取得エラー:") w
  end.

(** [JSON.parse(localStorage.getItem('uploadResult') || '{}').job_id]:
    the outer [None] is a [SyntaxError], the inner one [undefined]. *)
Definition stored_job_id `{JSON UploadResponse.t} (b : Browser.t)
    : option (option string) :=
  match Browser.getItem "uploadResult" b with
  | Some stored =>
      if truthy stored then
        uploadResult ← parse stored; Some (Some (UploadResponse.job_id uploadResult))
      else Some None
  | None => Some None
  end.

(** The message of the [SyntaxError] of [JSON.parse]; engines differ. *)
Definition SyntaxError_message : string := "Unexpected token".

(** [handleStartAnalysis] up to its [await]. *)
Definition handleStartAnalysis `{JSON UploadResponse.t} (w : World) : World :=
  match settings (page w) with
  | None => w
  | Some s =>
      let w := on_page (setIsRunning true) w in
      let w := on_page (setProgress 0) w in
      match stored_job_id (browser w) with
      | Some job_id =>
          let request :=
            {| AnalysisRequest.job_id := job_id; AnalysisRequest.settings := s |} in
          send call_start (Api.runAnalysis request) w
      | None =>
          on_browser (Browser.toast (toast_error ("分析開始エラー: " ++ SyntaxError_message)))
            (on_page (setIsRunning false) w)
      end
  end.

(** [handleStartAnalysis] after its [await]. *)
Definition start_settled (r : Api.Settled JobStatus.t) (w : World) : World :=
  match r with
  | Api.Fulfilled result =>
      on_browser (Browser.toast (toast_success "分析を開始しました"))
        (on_page (setJobStatus (Some result)) w)
  | Api.Rejected detail =>
      on_browser (Browser.toast (toast_error ("分析開始エラー: " ++ detail)))
        (on_page (setIsRunning false) w)
  end.

(** [handleCancelAnalysis] up to its [await]. *)
Definition handleCancelAnalysis (w : World) : World :=
  match current_job_id (page w) with
  | None => w
  | Some job_id => send call_cancel (Api.cancelJob job_id) w
  end.

(** [handleCancelAnalysis] after its [await]. *)
Definition cancel_settled (r : Api.Settled unit) (w : World) : World :=
  match r with
  | Api.Fulfilled _ =>
      on_browser (Browser.toast (toast_success "分析をキャンセルしました"))
        (on_page (setIsRunning false) w)
  | Api.Rejected detail =>
      on_browser (Browser.toast (toast_error ("キャンセルエラー: " ++ detail))) w
  end.

Definition handleReset (w : World) : World :=
  on_page (setProgress 0) (on_page (setIsRunning false) (on_page (setJobStatus None) w)).

(** [getStatusText]: a [switch] on the run-time string. *)
Definition getStatusText (status : string) : string :=
  if String.eqb status "pending" then "待機中"
  else if String.eqb status "running" then "実行中"
  else if String.eqb status "completed" then "完了"
  else if String.eqb status "failed" then "失敗"
  else "不明".

(** The line [総検定数] of the detail card. *)
Definition total_tests (s : AnalysisSettings.t) : nat :=
  length (VariableMapping.moderators (AnalysisSettings.variable_mapping s)) *
  length (VariableMapping.outcomes (AnalysisSettings.variable_mapping s)).

(** What can happen to a mounted page. *)
Inductive Event :=
  | ClickStart
  | StartSettled (r : Api.Settled JobStatus.t)
  | IntervalTick
  | PollSettled (r : Api.Settled JobStatus.t)
  | ClickCancel
  | CancelSettled (r : Api.Settled unit)
  | ClickReset.

(** One event; [None] when the event cannot happen in [w]: a button that
    is not rendered, a timer that is not set, a call that is not awaited.
    The start button is rendered when [!isRunning], the cancel button
    otherwise, the reset button when [jobStatus] is set, and none of them
    before the settings are loaded. *)
Definition step `{JSON UploadResponse.t} (e : Event) (w : World) : option World :=
  match e with
  | ClickStart =>
      if bool_decide (is_Some (settings (page w))) && negb (isRunning (page w))
      then Some (handleStartAnalysis w) else None
  | StartSettled r => start_settled r <$> settle call_start w
  | IntervalTick => poll_begin w
  | PollSettled r => poll_settled r <$> settle call_poll w
  | ClickCancel =>
      if bool_decide (is_Some (settings (page w))) && isRunning (page w)
      then Some (handleCancelAnalysis w) else None
  | CancelSettled r => cancel_settled r <$> settle call_cancel w
  | ClickReset =>
      if bool_decide (is_Some (settings (page w))) &&
         bool_decide (is_Some (jobStatus (page w)))
      then Some (handleReset w) else None
  end.

Fixpoint run `{JSON UploadResponse.t} (es : list Event) (w : World) : option World :=
  match es with
  | [] => Some w
  | e :: es' => w' ← step e w; run es' w'
  end.

(** The events of the status-polling loop. *)
Definition polling (e : Event) : bool :=
  match e with
  | IntervalTick | PollSettled _ => true
  | _ => false
  end.

(** The click that starts a run. *)
Definition restart (e : Event) : bool :=
  match e with
  | ClickStart => true
  | _ => false
  end.

(** The status the page holds for its job, if it holds a job. *)
Definition shown_status (w : World) : option string :=
  JobStatus.status <$> jobStatus (page w).

(** Nothing is running and nothing is awaited. *)
Definition quiescent (w : World) : Prop :=
  isRunning (page w) = false ∧ starts_in_flight w = 0%nat ∧
  polls_in_flight w = 0%nat ∧ cancels_in_flight w = 0%nat.

End AnalysisPage.

(** ** The results page ([ResultsPage.tsx]) *)

Module ResultsPage.

Module Filter.
Record t := {
  significant : bool;
  moderator : string;
  outcome : string
}.
End Filter.

Record State := {
  result : option AnalysisResult.t;
  filteredResults : list InteractionResult.t;
  filter : Filter.t
}.

(** The value the reset button passes to [setFilter]; it is also the
    initial filter. *)
Definition reset_filter : Filter.t :=
  {| Filter.significant := false; Filter.moderator := ""; Filter.outcome := "" |}.

Definition initial : State :=
  {| result := None; filteredResults := []; filter := reset_filter |}.

Definition applyFilters (st : State) : State :=
  match result st with
  | None => st
  | Some res =>
      let filtered := AnalysisResult.results res in
      let filtered :=
        if Filter.significant (filter st)
        then List.filter (fun r => Qltb (InteractionResult.q_interaction r) 0.05) filtered
        else filtered in
      let filtered :=
        if truthy (Filter.moderator (filter st))
        then List.filter (fun r => String.eqb (InteractionResult.moderator r)
                                     (Filter.moderator (filter st))) filtered
        else filtered in
      let filtered :=
        if truthy (Filter.outcome (filter st))
        then List.filter (fun r => String.eqb (InteractionResult.outcome r)
                                     (Filter.outcome (filter st))) filtered
        else filtered in
      {| result := result st; filteredResults := filtered; filter := filter st |}
  end.

(** [useEffect(() => { if (result) applyFilters() }, [result, filter])]:
    every change of [result] or [filter] is followed by [applyFilters]. *)
Definition setResult (res : AnalysisResult.t) (st : State) : State :=
  applyFilters {| result := Some res; filteredResults := filteredResults st;
                  filter := filter st |}.

Definition setFilter (f : Filter.t) (st : State) : State :=
  applyFilters {| result := result st; filteredResults := filteredResults st;
                  filter := f |}.

(** The [onClick] of the reset button. *)
Definition click_reset (st : State) : State := setFilter reset_filter st.

Definition getSignificanceColor (qValue : Q) : string :=
  if Qltb qValue 0.001 then "text-red-600 font-bold"
  else if Qltb qValue 0.01 then "text-red-500 font-semibold"
  else if Qltb qValue 0.05 then "text-orange-500 font-medium"
  else "text-gray-500".

Definition getSignificanceText (qValue : Q) : string :=
  if Qltb qValue 0.001 then "***"
  else if Qltb qValue 0.01 then "**"
  else if Qltb qValue 0.05 then "*"
  else "ns".

(** [result.results.filter(r => r.q_interaction < 0.05)]; its length is
    the count shown as [有意な結果]. *)
Definition significantResults (res : AnalysisResult.t) : list InteractionResult.t :=
  List.filter (fun r => Qltb (InteractionResult.q_interaction r) 0.05)
    (AnalysisResult.results res).

(** The [className] of a table row. *)
Definition row_className (row : InteractionResult.t) : string :=
  if Qltb (InteractionResult.q_interaction row) 0.05 then "bg-green-50" else "".

(** The options of the two [select]s:
    [[...new Set(result.results.map(r => r.moderator))].sort()]. *)
Definition moderators `{ArraySort} (res : AnalysisResult.t) : list string :=
  sort (distinct (map InteractionResult.moderator (AnalysisResult.results res))).

Definition outcomes `{ArraySort} (res : AnalysisResult.t) : list string :=
  sort (distinct (map InteractionResult.outcome (AnalysisResult.results res))).

(** What the figure-list endpoint returns, as far as the page reads it. *)
Module Figure.
Record t := { name : string }.
End Figure.

Module FigureList.
Record t := { figures : option (list Figure.t) }.
End FigureList.

(** The page with its list of figures, and where [loadResults] stands. *)
Inductive Loading :=
  | not_loading
  | await_result (job_id : string)
  | await_figures (job_id : string).

Record World := {
  state : State;
  figures : list string;
  browser : Browser.t;
  sent : list Api.Request;
  loading : Loading
}.

Definition start : Browser.t -> World := fun b =>
  {| state := initial; figures := []; browser := b; sent := [];
     loading := not_loading |}.

(** The [catch] block of [loadResults]. *)
Definition load_failed (detail : string) (w : World) : World :=
  {| state := state w; figures := figures w;
     browser := Browser.navigate "/analysis"
                  (Browser.toast (toast_error ("結果の読み込みエラー: " ++ detail))
                     (browser w));
     sent := sent w; loading := not_loading |}.

(** [loadResults] up to its first [await]. *)
Definition loadResults `{JSON UploadResponse.t} (w : World) : World :=
  match AnalysisPage.stored_job_id (browser w) with
  | None => load_failed AnalysisPage.SyntaxError_message w
  | Some job_id =>
      match job_id with
      | Some id =>
          if truthy id then
            {| state := state w; figures := figures w; browser := browser w;
               sent := sent w ++ [Api.getAnalysisResult id];
               loading := await_result id |}
          else
            {| state := state w; figures := figures w;
               browser := Browser.navigate "/" (browser w);
               sent := sent w; loading := not_loading |}
      | None =>
          {| state := state w; figures := figures w;
             browser := Browser.navigate "/" (browser w);
             sent := sent w; loading := not_loading |}
      end
  end.

(** [loadResults] between its two [await]s; [None] when it is not
    awaiting the result. *)
Definition result_settled (r : Api.Settled AnalysisResult.t) (w : World)
    : option World :=
  match loading w with
  | await_result id =>
      Some match r with
           | Api.Fulfilled analysisResult =>
               {| state := setResult analysisResult (state w);
                  figures := figures w; browser := browser w;
                  sent := sent w ++ [Api.getFigureList id];
                  loading := await_figures id |}
           | Api.Rejected detail => load_failed detail w
           end
  | _ => None
  end.

(** [loadResults] after its second [await]:
    [setFigures(figureList.figures?.map(f => f.name) || [])]. *)
Definition figures_settled (r : Api.Settled FigureList.t) (w : World)
    : option World :=
  match loading w with
  | await_figures _ =>
      Some match r with
           | Api.Fulfilled figureList =>
               {| state := state w;
                  figures := match FigureList.figures figureList with
                             | Some l => map Figure.name l
                             | None => []
                             end;
                  browser := browser w; sent := sent w;
                  loading := not_loading |}
           | Api.Rejected detail => load_failed detail w
           end
  | _ => None
  end.

End ResultsPage.

(** ** A reference JSON codec

    An executable [JSON.stringify] / [JSON.parse] for the values the pages
    store: objects, arrays, strings, booleans, [null] and numbers with a
    finite decimal expansion ([m / 10^k], printed with [k] fraction
    digits).  It gives concrete instances of the [JSON] class. *)

Module Json.

#[local] Unset Elimination Schemes.
Inductive value :=
  | Null
  | Bool (b : bool)
  | Number (q : Q)
  | Str (s : string)
  | Array (items : list value)
  | Object (members : list (string * value)).
#[local] Set Elimination Schemes.

Definition quote : ascii := "034"%char.
Definition backslash : ascii := "092"%char.
Definition newline : string := String "010"%char EmptyString.

(** *** Printing *)

Fixpoint digits (fuel : nat) (n : N) (acc : string) : string :=
  match fuel with
  | O => acc
  | S fuel' =>
      let acc' := String (ascii_of_N (48 + n mod 10)) acc in
      if (n <? 10)%N then acc' else digits fuel' (n / 10) acc'
  end.

Definition print_N (n : N) : string := digits (S (N.to_nat (N.log2 n))) n "".

(** [Some k] when [d = 10^k]. *)
Definition pow10_exponent (d : positive) : option nat :=
  let k := Nat.pred (String.length (print_N (Npos d))) in
  if (Npos d =? 10 ^ N.of_nat k)%N then Some k else None.

Definition print_number (q : Q) : string :=
  match pow10_exponent (Qden q) with
  | None => "null"
  | Some k =>
      let m := Z.abs_N (Qnum q) in
      let p := (10 ^ N.of_nat k)%N in
      (if (Qnum q <? 0)%Z then "-" else "") ++ print_N (m / p) ++
      match k with
      | O => ""
      | S _ => "." ++ match print_N (p + m mod p) with
                      | String _ fraction => fraction
                      | EmptyString => ""
                      end
      end
  end.

Fixpoint escape (s : string) : string :=
  match s with
  | EmptyString => EmptyString
  | String c rest =>
      if Ascii.eqb c quote || Ascii.eqb c backslash
      then String backslash (String c (escape rest))
      else if (N_of_ascii c <? 32)%N
      then String backslash
             ("u00" ++ String (hex_char (N_of_ascii c / 16))
                         (String (hex_char (N_of_ascii c mod 16)) (escape rest)))
      else String c (escape rest)
  end.

Definition print_string (s : string) : string :=
  String quote (escape s ++ String quote EmptyString).

Fixpoint spaces (n : nat) : string :=
  match n with
  | O => EmptyString
  | S n' => String " " (spaces n')
  end.

(** Items between brackets, [indent] spaces per level ([0]: compact). *)
Definition bracket (indent level : nat) (open close : string)
    (items : list string) : string :=
  match items with
  | [] => open ++ close
  | _ =>
      let break (l : nat) : string :=
        if (indent =? 0)%nat then "" else newline ++ spaces (indent * l) in
      open ++ break (S level) ++
      String.concat ("," ++ break (S level)) items ++
      break level ++ close
  end.

Fixpoint print (indent level : nat) (v : value) : string :=
  match v with
  | Null => "null"
  | Bool b => if b then "true" else "false"
  | Number q => print_number q
  | Str s => print_string s
  | Array items =>
      bracket indent level "[" "]" (map (print indent (S level)) items)
  | Object members =>
      bracket indent level "{" "}"
        (map (fun m => print_string (fst m) ++
                       (if (indent =? 0)%nat then ":" else ": ") ++
                       print indent (S level) (snd m)) members)
  end.

(** *** Parsing *)

Definition is_space (c : ascii) : bool :=
  bool_decide (c ∈ [" "; "009"; "010"; "013"]%char).

Fixpoint skip_space (s : string) : string :=
  match s with
  | String c rest => if is_space c then skip_space rest else s
  | EmptyString => s
  end.

Definition is_digit (c : ascii) : bool := in_range 48 57 c.

(** The leading digits of [s]: their value, their number, the rest. *)
Fixpoint read_digits (s : string) (acc : N) (count : nat) : N * nat * string :=
  match s with
  | String c rest =>
      if is_digit c
      then read_digits rest (10 * acc + (N_of_ascii c - 48))%N (S count)
      else (acc, count, s)
  | EmptyString => (acc, count, s)
  end.

Definition read_number (s : string) : option (Q * string) :=
  let '(negative, s) :=
    match s with
    | String "-" rest => (true, rest)
    | _ => (false, s)
    end in
  let '(whole, n, s) := read_digits s 0 0 in
  if (n =? 0)%nat then None else
  let '(mantissa, k, s) :=
    match s with
    | String "." rest =>
        let '(m, k, rest') := read_digits rest whole 0 in (m, k, rest')
    | _ => (whole, O, s)
    end in
  match s, k with
  | String "." _, O => None
  | _, _ =>
      match (10 ^ N.of_nat k)%N with
      | Npos d =>
          Some ((if negative then - Z.of_N mantissa else Z.of_N mantissa)%Z # d, s)
      | N0 => None
      end
  end.

(** The characters of a string literal after its opening quote. *)
Fixpoint read_string (s : string) : option (string * string) :=
  match s with
  | EmptyString => None
  | String c rest =>
      if Ascii.eqb c quote then Some (EmptyString, rest)
      else if Ascii.eqb c backslash then
        match rest with
        | String "u" (String "0" (String "0" (String h (String l rest')))) =>
            a ← hex_value h; b ← hex_value l;
            '(str, rest'') ← read_string rest';
            if (a <? 8)%N then Some (String (ascii_of_N (16 * a + b)) str, rest'')
            else None
        | String e rest' =>
            c' ← (if Ascii.eqb e quote then Some quote
                  else if Ascii.eqb e backslash then Some backslash
                  else match e with
                       | "/" => Some "/"
                       | "b" => Some "008"
                       | "f" => Some "012"
                       | "n" => Some "010"
                       | "r" => Some "013"
                       | "t" => Some "009"
                       | _ => None
                       end)%char;
            '(str, rest'') ← read_string rest';
            Some (String c' str, rest'')
        | EmptyString => None
        end
      else if (N_of_ascii c <? 32)%N then None
      else '(str, rest') ← read_string rest; Some (String c str, rest')
  end.

Definition strip_prefix (p s : string) : option string :=
  if String.prefix p s
  then Some (String.substring (String.length p) (String.length s - String.length p) s)
  else None.

Fixpoint read_value (fuel : nat) (s : string) : option (value * string) :=
  match fuel with
  | O => None
  | S fuel' =>
      let s := skip_space s in
      match s with
      | String "n" _ => rest ← strip_prefix "null" s; Some (Null, rest)
      | String "t" _ => rest ← strip_prefix "true" s; Some (Bool true, rest)
      | String "f" _ => rest ← strip_prefix "false" s; Some (Bool false, rest)
      | String "[" rest =>
          match skip_space rest with
          | String "]" rest' => Some (Array [], rest')
          | _ => '(items, rest') ← read_items fuel' rest; Some (Array items, rest')
          end
      | String "{" rest =>
          match skip_space rest with
          | String "}" rest' => Some (Object [], rest')
          | _ => '(members, rest') ← read_members fuel' rest; Some (Object members, rest')
          end
      | String c rest =>
          if Ascii.eqb c quote
          then '(str, rest') ← read_string rest; Some (Str str, rest')
          else '(q, rest') ← read_number s; Some (Number q, rest')
      | EmptyString => None
      end
  end
with read_items (fuel : nat) (s : string) : option (list value * string) :=
  match fuel with
  | O => None
  | S fuel' =>
      '(v, rest) ← read_value fuel' s;
      match skip_space rest with
      | String "," rest' =>
          '(vs, rest'') ← read_items fuel' rest'; Some (v :: vs, rest'')
      | String "]" rest' => Some ([v], rest')
      | _ => None
      end
  end
with read_members (fuel : nat) (s : string)
    : option (list (string * value) * string) :=
  match fuel with
  | O => None
  | S fuel' =>
      match skip_space s with
      | String c rest =>
          if Ascii.eqb c quote then
            '(key, rest) ← read_string rest;
            match skip_space rest with
            | String ":" rest =>
                '(v, rest) ← read_value fuel' rest;
                match skip_space rest with
                | String "," rest' =>
                    '(ms, rest'') ← read_members fuel' rest';
                    Some ((key, v) :: ms, rest'')
                | String "}" rest' => Some ([(key, v)], rest')
                | _ => None
                end
            | _ => None
            end
          else None
      | EmptyString => None
      end
  end.

(** The whole text must be one value. *)
Definition read (s : string) : option value :=
  '(v, rest) ← read_value (2 * String.length s + 2) s;
  match skip_space rest with
  | EmptyString => Some v
  | String _ _ => None
  end.

(** *** The typed views *)

Fixpoint member (key : string) (members : list (string * value)) : option value :=
  match members with
  | [] => None
  | (k, v) :: rest => if String.eqb k key then Some v else member key rest
  end.

Definition field {A} (of_value : value -> option A) (key : string) (v : value)
    : option A :=
  match v with
  | Object members => member key members ≫= of_value
  | _ => None
  end.

Definition to_bool (v : value) : option bool :=
  match v with Bool b => Some b | _ => None end.

Definition to_number (v : value) : option Q :=
  match v with Number q => Some q | _ => None end.

Definition to_integer (v : value) : option Z :=
  match v with
  | Number q => if (Qden q =? 1)%positive then Some (Qnum q) else None
  | _ => None
  end.

Definition to_string (v : value) : option string :=
  match v with Str s => Some s | _ => None end.

Definition to_list {A} (of_value : value -> option A) (v : value)
    : option (list A) :=
  match v with
  | Array items => mapM of_value items
  | _ => None
  end.

Definition of_integer (z : Z) : value := Number (z # 1).

Definition of_strings (l : list string) : value := Array (map Str l).

Definition of_settings (s : AnalysisSettings.t) : value :=
  let vm := AnalysisSettings.variable_mapping s in
  let dp := AnalysisSettings.data_processing s in
  Object
    [("variable_mapping", Object
        [("moderators", of_strings (VariableMapping.moderators vm));
         ("outcomes", of_strings (VariableMapping.outcomes vm));
         ("intervention", Str (VariableMapping.intervention vm))]);
     ("data_processing", Object
        [("center_outcomes", Bool (DataProcessingSettings.center_outcomes dp));
         ("center_moderators", Bool (DataProcessingSettings.center_moderators dp));
         ("ordinal_outcomes", of_strings (DataProcessingSettings.ordinal_outcomes dp));
         ("run_sensitivity", Bool (DataProcessingSettings.run_sensitivity dp));
         ("seed", of_integer (DataProcessingSettings.seed dp))]);
     ("fdr_alpha", Number (AnalysisSettings.fdr_alpha s));
     ("min_sample_size", of_integer (AnalysisSettings.min_sample_size s));
     ("generate_plots", Bool (AnalysisSettings.generate_plots s));
     ("max_plots", of_integer (AnalysisSettings.max_plots s))].

Definition to_variable_mapping (v : value) : option VariableMapping.t :=
  ms ← field (to_list to_string) "moderators" v;
  os ← field (to_list to_string) "outcomes" v;
  i ← field to_string "intervention" v;
  Some {| VariableMapping.moderators := ms; VariableMapping.outcomes := os;
          VariableMapping.intervention := i |}.

Definition to_data_processing (v : value) : option DataProcessingSettings.t :=
  co ← field to_bool "center_outcomes" v;
  cm ← field to_bool "center_moderators" v;
  oo ← field (to_list to_string) "ordinal_outcomes" v;
  rs ← field to_bool "run_sensitivity" v;
  sd ← field to_integer "seed" v;
  Some {| DataProcessingSettings.center_outcomes := co;
          DataProcessingSettings.center_moderators := cm;
          DataProcessingSettings.ordinal_outcomes := oo;
          DataProcessingSettings.run_sensitivity := rs;
          DataProcessingSettings.seed := sd |}.

Definition to_settings (v : value) : option AnalysisSettings.t :=
  vm ← field to_variable_mapping "variable_mapping" v;
  dp ← field to_data_processing "data_processing" v;
  fa ← field to_number "fdr_alpha" v;
  mss ← field to_integer "min_sample_size" v;
  gp ← field to_bool "generate_plots" v;
  mp ← field to_integer "max_plots" v;
  Some {| AnalysisSettings.variable_mapping := vm;
          AnalysisSettings.data_processing := dp;
          AnalysisSettings.fdr_alpha := fa;
          AnalysisSettings.min_sample_size := mss;
          AnalysisSettings.generate_plots := gp;
          AnalysisSettings.max_plots := mp |}.

Definition of_data_type (d : DataType) : value :=
  Str match d with
      | numeric => "numeric"
      | categorical => "categorical"
      | ordinal => "ordinal"
      | text => "text"
      end.

Definition to_data_type (v : value) : option DataType :=
  s ← to_string v;
  if String.eqb s "numeric" then Some numeric
  else if String.eqb s "categorical" then Some categorical
  else if String.eqb s "ordinal" then Some ordinal
  else if String.eqb s "text" then Some text
  else None.

Definition of_column (c : ColumnInfo.t) : value :=
  Object
    [("name", Str (ColumnInfo.name c));
     ("data_type", of_data_type (ColumnInfo.data_type c));
     ("unique_count", of_integer (ColumnInfo.unique_count c));
     ("missing_count", of_integer (ColumnInfo.missing_count c));
     ("missing_rate", Number (ColumnInfo.missing_rate c));
     ("sample_values", of_strings (ColumnInfo.sample_values c))].

Definition to_column (v : value) : option ColumnInfo.t :=
  n ← field to_string "name" v;
  dt ← field to_data_type "data_type" v;
  uc ← field to_integer "unique_count" v;
  mc ← field to_integer "missing_count" v;
  mr ← field to_number "missing_rate" v;
  sv ← field (to_list to_string) "sample_values" v;
  Some {| ColumnInfo.name := n; ColumnInfo.data_type := dt;
          ColumnInfo.unique_count := uc; ColumnInfo.missing_count := mc;
          ColumnInfo.missing_rate := mr; ColumnInfo.sample_values := sv |}.

Definition of_upload (u : UploadResponse.t) : value :=
  Object
    [("job_id", Str (UploadResponse.job_id u));
     ("filename", Str (UploadResponse.filename u));
     ("columns", Array (map of_column (UploadResponse.columns u)));
     ("message", Str (UploadResponse.message u))].

Definition to_upload (v : value) : option UploadResponse.t :=
  j ← field to_string "job_id" v;
  f ← field to_string "filename" v;
  cs ← field (to_list to_column) "columns" v;
  m ← field to_string "message" v;
  Some {| UploadResponse.job_id := j; UploadResponse.filename := f;
          UploadResponse.columns := cs; UploadResponse.message := m |}.

Definition parse_settings (s : string) : option AnalysisSettings.t :=
  v ← read s; to_settings v.

Definition parse_upload (s : string) : option UploadResponse.t :=
  v ← read s; to_upload v.

End Json.

(** The two instances of [JSON] the pages use, from the reference codec. *)
Definition settings_codec : JSON AnalysisSettings.t :=
  {| stringify := fun s => Json.print 0 0 (Json.of_settings s);
     stringify_indent2 := fun s => Json.print 2 0 (Json.of_settings s);
     parse := Json.parse_settings;
     parse_empty := eq_refl |}.

Definition upload_codec : JSON UploadResponse.t :=
  {| stringify := fun u => Json.print 0 0 (Json.of_upload u);
     stringify_indent2 := fun u => Json.print 2 0 (Json.of_upload u);
     parse := Json.parse_upload;
     parse_empty := eq_refl |}.

(** An instance of [ArraySort]: merge sort by the byte order of strings. *)
Definition byte_le (x y : string) : Prop := String.leb x y = true.

#[export] Instance byte_le_dec : RelDecision byte_le :=
  fun x y => bool_eq_dec (String.leb x y) true.

Definition byte_order_sort : ArraySort :=
  {| sort := merge_sort byte_le;
     sort_permutation := merge_sort_Permutation byte_le |}.

(** ** What the specification says

    These definitions follow the words of the specification; the theorems
    below compare them with the code. *)

Module Spec.

(** "[status] ∈ {pending, running, completed, failed, cancelled}" *)
Definition status_domain : list string :=
  ["pending"; "running"; "completed"; "failed"; "cancelled"].

(** "the three sets are pairwise disjoint" *)
Definition roles_disjoint (vm : VariableMapping.t) : Prop :=
  (∀ x, x ∈ VariableMapping.moderators vm → x ∉ VariableMapping.outcomes vm) ∧
  (VariableMapping.intervention vm ∉ VariableMapping.moderators vm) ∧
  (VariableMapping.intervention vm ∉ VariableMapping.outcomes vm).

(** "[fdr_alpha] ∈ (0, 0.5], [min_sample_size] (≥1), [max_plots] (≥0)" *)
Definition in_declared_ranges (s : AnalysisSettings.t) : Prop :=
  (0 < AnalysisSettings.fdr_alpha s)%Q ∧ (AnalysisSettings.fdr_alpha s <= 0.5)%Q ∧
  (1 ≤ AnalysisSettings.min_sample_size s)%Z ∧
  (0 ≤ AnalysisSettings.max_plots s)%Z.

(** No configuration error: "bad VariableMapping, overlapping roles,
    out-of-range settings". *)
Definition no_configuration_error (s : AnalysisSettings.t) : Prop :=
  let vm := AnalysisSettings.variable_mapping s in
  VariableMapping.moderators vm ≠ [] ∧
  VariableMapping.outcomes vm ≠ [] ∧
  VariableMapping.intervention vm ≠ "" ∧
  roles_disjoint vm ∧
  in_declared_ranges s.

(** "every (moderator, outcome) pair" *)
Definition pairs (vm : VariableMapping.t) : list (string * string) :=
  list_prod (VariableMapping.moderators vm) (VariableMapping.outcomes vm).

(** Significant at level [alpha]: [q_interaction] below [alpha]. *)
Definition significant_at (alpha : Q) (r : InteractionResult.t) : Prop :=
  (InteractionResult.q_interaction r < alpha)%Q.

(** The conjunction of the enabled predicates of a filter. *)
Definition enabled (f : ResultsPage.Filter.t) (r : InteractionResult.t) : bool :=
  (if ResultsPage.Filter.significant f
   then Qltb (InteractionResult.q_interaction r) 0.05 else true) &&
  (if truthy (ResultsPage.Filter.moderator f)
   then String.eqb (InteractionResult.moderator r) (ResultsPage.Filter.moderator f)
   else true) &&
  (if truthy (ResultsPage.Filter.outcome f)
   then String.eqb (InteractionResult.outcome r) (ResultsPage.Filter.outcome f)
   else true).

End Spec.

(** ** Concrete data for the examples *)

Module Sample.

Definition column (name : string) : ColumnInfo.t :=
  {| ColumnInfo.name := name; ColumnInfo.data_type := numeric;
     ColumnInfo.unique_count := 5; ColumnInfo.missing_count := 0;
     ColumnInfo.missing_rate := 0; ColumnInfo.sample_values := ["1"; "2"] |}.

Definition upload : UploadResponse.t :=
  {| UploadResponse.job_id := "job-1"; UploadResponse.filename := "data.csv";
     UploadResponse.columns := map column ["A"; "B"; "C"; "G"; "H"; "S"];
     UploadResponse.message := "ok" |}.

(** A browser with empty storage, showing the page at [path]. *)
Definition browser (path : string) : Browser.t :=
  {| Browser.localStorage := ∅; Browser.location := path;
     Browser.toasts := []; Browser.downloads := []; Browser.console := [] |}.

(** The settings the settings page holds after its mount effect ran on
    [upload]. *)
Definition settings : AnalysisSettings.t :=
  SettingsPage.with_variable_mapping
    (SettingsPage.default_mapping (UploadResponse.columns upload))
    SettingsPage.initial_settings.

(** The settings page after its mount effect ran on [upload]. *)
Definition mounted : SettingsPage.State :=
  {| SettingsPage.uploadResult := Some upload; SettingsPage.settings := settings |}.

(** The user then ticks column [B] as an outcome too, selects it as the
    intervention, and types three numbers. *)
Definition overlapping : SettingsPage.State :=
  SettingsPage.change_max_plots (-1)
    (SettingsPage.change_min_sample_size 0
       (SettingsPage.change_fdr_alpha 0.9
          (SettingsPage.handleVariableMappingChange
             SettingsPage.field_intervention ["B"]
             (SettingsPage.toggle_outcome "B" true mounted)))).

(** The user types 0.1 as [fdr_alpha]. *)
Definition lenient : SettingsPage.State :=
  SettingsPage.change_fdr_alpha 0.1 mounted.

Definition job (status : string) (progress : Q) : JobStatus.t :=
  {| JobStatus.job_id := "job-1"; JobStatus.status := status;
     JobStatus.progress := progress; JobStatus.message := "";
     JobStatus.created_at := "2024-01-01T00:00:00";
     JobStatus.updated_at := "2024-01-01T00:00:00" |}.

(** The analysis page once mounted: settings loaded, upload result in
    storage, nothing sent. *)
Definition world : AnalysisPage.World :=
  {| AnalysisPage.page :=
       AnalysisPage.setSettings (Some settings) AnalysisPage.initial;
     AnalysisPage.browser :=
       Browser.setItem "uploadResult" (@stringify _ upload_codec upload)
         (browser "/analysis");
     AnalysisPage.sent := [];
     AnalysisPage.starts_in_flight := 0;
     AnalysisPage.polls_in_flight := 0;
     AnalysisPage.cancels_in_flight := 0 |}.

(** A run: the job is started, polled once while running, and the cancel
    button is clicked. *)
Definition until_cancel_click : list AnalysisPage.Event :=
  [AnalysisPage.ClickStart;
   AnalysisPage.StartSettled (Api.Fulfilled (job "pending" 0));
   AnalysisPage.IntervalTick;
   AnalysisPage.PollSettled (Api.Fulfilled (job "running" 0.2));
   AnalysisPage.ClickCancel].

Definition cancel_succeeds : AnalysisPage.Event :=
  AnalysisPage.CancelSettled (Api.Fulfilled ()).

(** The world when the cancel call is awaited, and once it succeeded. *)
Definition awaiting_cancel : AnalysisPage.World :=
  default world (@AnalysisPage.run upload_codec until_cancel_click world).

Definition cancelled : AnalysisPage.World :=
  default world (@AnalysisPage.step upload_codec cancel_succeeds awaiting_cancel).

Definition slope : SimpleSlope.t :=
  {| SimpleSlope.slope := 0; SimpleSlope.p_value := 0.5;
     SimpleSlope.ci_lower := -1; SimpleSlope.ci_upper := 1;
     SimpleSlope.cohens_d := 0 |}.

Definition row (moderator outcome : string) (q : Q) : InteractionResult.t :=
  {| InteractionResult.moderator := moderator;
     InteractionResult.outcome := outcome;
     InteractionResult.n_used := 45;
     InteractionResult.median := 0; InteractionResult.mean := 0;
     InteractionResult.std := 1;
     InteractionResult.beta_interaction := 0.3;
     InteractionResult.p_interaction := q;
     InteractionResult.q_interaction := q;
     InteractionResult.partial_eta2 := 0.1;
     InteractionResult.simple_slope_low := slope;
     InteractionResult.simple_slope_high := slope;
     InteractionResult.r_squared := 0.2;
     InteractionResult.adj_r_squared := 0.1 |}.

Definition analysis (rows : list InteractionResult.t) : AnalysisResult.t :=
  {| AnalysisResult.job_id := "job-1"; AnalysisResult.status := "completed";
     AnalysisResult.created_at := "2024-01-01T00:00:00";
     AnalysisResult.completed_at := None;
     AnalysisResult.results := rows; AnalysisResult.notes := [];
     AnalysisResult.logs := ""; AnalysisResult.figures := [];
     AnalysisResult.error_message := None |}.

End Sample.

(** * Properties *)

(** ** JavaScript primitives *)

Lemma Qltb_true (x y : Q) : Qltb x y = true ↔ (x < y)%Q.
Proof.
  unfold Qltb. rewrite negb_true_iff, <- not_true_iff_false, Qle_bool_iff.
  split; [apply Qnot_le_lt | apply Qlt_not_le].
Qed.

Lemma Qltb_false (x y : Q) : Qltb x y = false ↔ (y <= x)%Q.
Proof. unfold Qltb. by rewrite negb_false_iff, Qle_bool_iff. Qed.

Lemma truthy_true (s : string) : truthy s = true ↔ s ≠ "".
Proof. destruct s; simpl; split; congruence. Qed.

Lemma truthy_false (s : string) : truthy s = false ↔ s = "".
Proof. destruct s; simpl; split; congruence. Qed.

(** *** Percent-encoding *)

Lemma percent_byte (c : ascii) :
  hex_value (hex_char (N_of_ascii c / 16)) = Some (N_of_ascii c / 16)%N ∧
  hex_value (hex_char (N_of_ascii c mod 16)) = Some (N_of_ascii c mod 16)%N ∧
  ascii_of_N (16 * (N_of_ascii c / 16) + N_of_ascii c mod 16) = c.
Proof. destruct c as [[] [] [] [] [] [] [] []]; vm_compute; done. Qed.

Lemma unreserved_not_percent (c : ascii) :
  unreserved c = true → Ascii.eqb c "%" = false.
Proof.
  destruct (Ascii.eqb_spec c "%") as [-> | ?]; [|done].
  vm_compute. congruence.
Qed.

Lemma percent_decode_plain (c : ascii) (rest : string) :
  Ascii.eqb c "%" = false →
  percent_decode (String c rest) = String c (percent_decode rest).
Proof.
  intros Hc. cbn [percent_decode]. rewrite Hc.
  by destruct rest as [|h [|l rest']].
Qed.

Lemma percent_decode_escape (c : ascii) (rest : string) :
  percent_decode
    (String "%" (String (hex_char (N_of_ascii c / 16))
       (String (hex_char (N_of_ascii c mod 16)) rest))) =
  String c (percent_decode rest).
Proof.
  destruct (percent_byte c) as (Hhi & Hlo & Hc).
  cbn [percent_decode]. rewrite Ascii.eqb_refl, Hhi, Hlo, Hc. done.
Qed.

(** Decoding undoes [encodeURIComponent], on every string. *)
Lemma percent_decode_encodeURIComponent (s : string) :
  percent_decode (encodeURIComponent s) = s.
Proof.
  induction s as [|c rest IH]; [done|].
  cbn [encodeURIComponent]. destruct (unreserved c) eqn:Hc.
  - rewrite percent_decode_plain by by apply unreserved_not_percent.
    by rewrite IH.
  - by rewrite percent_decode_escape, IH.
Qed.

(** The file downloaded from the link that [handleExportSettings] builds
    holds the text that was encoded. *)
Lemma data_url_body_encoded (s : string) :
  data_url_body ("data:application/json;charset=utf-8," ++ encodeURIComponent s)
  = Some s.
Proof.
  unfold data_url_body.
  change (after_first_comma _) with (Some (encodeURIComponent s)).
  cbn [fmap option_fmap option_map]. by rewrite percent_decode_encodeURIComponent.
Qed.

(** ** The settings page *)

Section settings_page.
Context `{!JSON AnalysisSettings.t}.

(** *** The default variable mapping *)

Lemma match_one_of_exclusive (a b c d : ascii) (name : string) :
  (N_of_ascii b < N_of_ascii c)%N →
  SettingsPage.match_one_of a b name = true →
  SettingsPage.match_one_of c d name = true → False.
Proof.
  destruct name as [|ch [|]]; try done. unfold SettingsPage.match_one_of, in_range.
  rewrite !andb_true_iff, !N.leb_le. lia.
Qed.

Lemma defaultModerators_match (columns : list ColumnInfo.t) (x : string) :
  x ∈ SettingsPage.defaultModerators columns →
  SettingsPage.match_one_of "B" "F" x = true.
Proof.
  unfold SettingsPage.defaultModerators.
  rewrite list_elem_of_In, in_map_iff. intros (col & <- & Hcol).
  by apply filter_In in Hcol as [_ ?].
Qed.

Lemma defaultOutcomes_match (columns : list ColumnInfo.t) (x : string) :
  x ∈ SettingsPage.defaultOutcomes columns →
  SettingsPage.match_one_of "G" "R" x = true.
Proof.
  unfold SettingsPage.defaultOutcomes.
  rewrite list_elem_of_In, in_map_iff. intros (col & <- & Hcol).
  by apply filter_In in Hcol as [_ ?].
Qed.

Lemma defaultIntervention_cases (columns : list ColumnInfo.t) :
  SettingsPage.defaultIntervention columns = "S" ∨
  SettingsPage.defaultIntervention columns = "".
Proof.
  unfold SettingsPage.defaultIntervention.
  destruct (List.find _ columns) as [col|] eqn:Hfind; [|by right].
  apply find_some in Hfind as [_ Heq]. apply String.eqb_eq in Heq.
  rewrite Heq. by left.
Qed.

(** The intervention is the column named [S] exactly when there is one. *)
Lemma defaultIntervention_present (columns : list ColumnInfo.t) :
  SettingsPage.defaultIntervention columns = "S" ↔
  "S" ∈ map ColumnInfo.name columns.
Proof.
  unfold SettingsPage.defaultIntervention. split.
  - destruct (List.find _ columns) as [col|] eqn:Hfind; [|done].
    apply find_some in Hfind as [Hin Heq]. apply String.eqb_eq in Heq.
    intros _. rewrite <- Heq. apply list_elem_of_fmap_2. by apply list_elem_of_In.
  - intros (col & Hname & Hin)%list_elem_of_fmap.
    destruct (List.find _ columns) as [col'|] eqn:Hfind.
    + apply find_some in Hfind as [_ Heq]. apply String.eqb_eq in Heq.
      by rewrite Heq.
    + apply list_elem_of_In in Hin.
      pose proof (find_none _ _ Hfind col Hin) as Hne. simpl in Hne.
      rewrite <- Hname in Hne. by rewrite String.eqb_refl in Hne.
Qed.

(** C5. For every list of uploaded columns, the default mapping computed
    on loading the settings page (moderators: the columns named by one
    letter of [B-F]; outcomes: those named by one letter of [G-R];
    intervention: the column named [S] if present) has pairwise disjoint
    roles: no name is both a moderator and an outcome, and the
    intervention is neither. *)
Theorem default_mapping_roles_disjoint (columns : list ColumnInfo.t) :
  Spec.roles_disjoint (SettingsPage.default_mapping columns).
Proof.
  unfold Spec.roles_disjoint; simpl. split_and!.
  - intros x Hm Ho.
    apply defaultModerators_match in Hm. apply defaultOutcomes_match in Ho.
    by apply (match_one_of_exclusive "B" "F" "G" "R" x).
  - intros Hm%defaultModerators_match.
    by destruct (defaultIntervention_cases columns) as [Heq | Heq];
      rewrite Heq in Hm.
  - intros Ho%defaultOutcomes_match.
    by destruct (defaultIntervention_cases columns) as [Heq | Heq];
      rewrite Heq in Ho.
Qed.

(** The mount effect installs that mapping whenever it finds an upload
    result, and changes nothing else of the settings. *)
Lemma on_mount_default_mapping `{!JSON UploadResponse.t}
    (st st' : SettingsPage.State) (b b' : Browser.t) (result : UploadResponse.t) :
  SettingsPage.on_mount st b = Some (st', b') →
  SettingsPage.uploadResult st' = Some result →
  SettingsPage.uploadResult st = None →
  SettingsPage.settings st' =
    SettingsPage.with_variable_mapping
      (SettingsPage.default_mapping (UploadResponse.columns result))
      (SettingsPage.settings st).
Proof.
  unfold SettingsPage.on_mount. intros Hmount Hres Hnone.
  destruct (Browser.getItem _ b) as [saved|]; [destruct (truthy saved)|];
    [destruct (parse saved)| |]; simplify_eq/=; congruence.
Qed.

(** C6. The initial settings of the settings page satisfy every declared
    range: [fdr_alpha = 0.05] lies in (0, 0.5], [min_sample_size = 30] is
    at least 1 and [max_plots = 20] is at least 0. *)
Theorem initial_settings_in_declared_ranges :
  Spec.in_declared_ranges SettingsPage.initial_settings ∧
  SettingsPage.settings SettingsPage.initial = SettingsPage.initial_settings ∧
  AnalysisSettings.fdr_alpha SettingsPage.initial_settings = (5 # 100)%Q ∧
  AnalysisSettings.min_sample_size SettingsPage.initial_settings = 30%Z ∧
  AnalysisSettings.max_plots SettingsPage.initial_settings = 20%Z.
Proof.
  unfold Spec.in_declared_ranges; simpl. split_and!; try done.
Qed.

(** *** Leaving the settings page *)

(** C3. [handleNext] proceeds to the analysis page (it stores the settings
    and navigates to [/analysis]) exactly when there is at least one
    moderator, at least one outcome and a selected intervention;
    otherwise it only shows an error toast, at once, and neither stores
    nor navigates.  It looks at nothing else in the settings. *)
Theorem handleNext_checks (st : SettingsPage.State) (b : Browser.t) :
  let vm := AnalysisSettings.variable_mapping (SettingsPage.settings st) in
  (VariableMapping.moderators vm ≠ [] ∧ VariableMapping.outcomes vm ≠ [] ∧
   VariableMapping.intervention vm ≠ "" ∧
   SettingsPage.handleNext st b =
     Browser.navigate "/analysis"
       (Browser.setItem "analysisSettings" (stringify (SettingsPage.settings st)) b))
  ∨
  ((VariableMapping.moderators vm = [] ∨ VariableMapping.outcomes vm = [] ∨
    VariableMapping.intervention vm = "") ∧
   ∃ msg, SettingsPage.handleNext st b = Browser.toast (toast_error msg) b).
Proof.
  intros vm. unfold SettingsPage.handleNext. fold vm.
  destruct (VariableMapping.moderators vm) as [|m ms] eqn:Hm; simpl.
  { right. split; [by left | eauto]. }
  destruct (VariableMapping.outcomes vm) as [|o os] eqn:Ho; simpl.
  { right. split; [by right; left | eauto]. }
  destruct (VariableMapping.intervention vm) as [|c i] eqn:Hi; simpl.
  { right. split; [by right; right | eauto]. }
  left. by split_and!.
Qed.

(** *** Saving and loading the settings *)

Lemma survives_nonempty (to_text : AnalysisSettings.t → string)
    (s : AnalysisSettings.t) :
  survives to_text s → truthy (to_text s) = true.
Proof.
  unfold survives. intros Hs. apply truthy_true. intros Hempty.
  rewrite Hempty, parse_empty in Hs. done.
Qed.

Lemma handleSaveSettings_stored (st : SettingsPage.State) (b : Browser.t) :
  Browser.getItem "analysisSettings" (SettingsPage.handleSaveSettings st b)
  = Some (stringify (SettingsPage.settings st)).
Proof.
  unfold SettingsPage.handleSaveSettings, Browser.getItem; simpl.
  apply lookup_insert_eq.
Qed.

(** C9. For every settings value that survives JSON serialization, saving
    and then loading restores it, whatever the page held in between; and
    the file that the export link downloads, once imported, restores the
    exported settings. *)
Theorem settings_round_trip (st : SettingsPage.State) (b : Browser.t) :
  survives stringify (SettingsPage.settings st) →
  survives stringify_indent2 (SettingsPage.settings st) →
  (∀ st',
     SettingsPage.settings
       (SettingsPage.handleLoadSettings st' (SettingsPage.handleSaveSettings st b)).1
     = SettingsPage.settings st) ∧
  (∃ href content,
     Browser.downloads (SettingsPage.handleExportSettings st b)
       = (Browser.downloads b ++ [("analysis_settings.json", href)])%list ∧
     data_url_body href = Some content ∧
     ∀ st' b',
       SettingsPage.settings
         (SettingsPage.handleImportSettings (Some content) st' b').1
       = SettingsPage.settings st).
Proof.
  intros Hcompact Hindent. split.
  - intros st'. unfold SettingsPage.handleLoadSettings.
    rewrite handleSaveSettings_stored, (survives_nonempty _ _ Hcompact).
    unfold survives in Hcompact. by rewrite Hcompact.
  - eexists _, _. split_and!.
    + reflexivity.
    + apply data_url_body_encoded.
    + intros st' b'. unfold SettingsPage.handleImportSettings.
      unfold survives in Hindent. by rewrite Hindent.
Qed.

End settings_page.

(** ** The analysis page *)

(** *** The status domain *)

(** C1. The job status type of the program, [AnalysisStatus], has exactly
    the four members pending, running, completed and failed; no member is
    'cancelled'.  [getStatusText] labels each of the four, and gives the
    label for an unknown status to 'cancelled'.  A cancellation, however
    the cancel call settles, leaves the status field of the job the page
    holds as it was. *)
Theorem status_domain_four_states :
  (∀ s : AnalysisStatus, s ∈ AnalysisStatus_all) ∧
  map AnalysisStatus_literal AnalysisStatus_all
    = ["pending"; "running"; "completed"; "failed"] ∧
  (∀ s : AnalysisStatus, AnalysisStatus_literal s ≠ "cancelled") ∧
  (∀ s : AnalysisStatus,
     AnalysisPage.getStatusText (AnalysisStatus_literal s) ≠ "不明") ∧
  AnalysisPage.getStatusText "cancelled" = "不明" ∧
  (∀ r w, AnalysisPage.jobStatus (AnalysisPage.page (AnalysisPage.cancel_settled r w))
          = AnalysisPage.jobStatus (AnalysisPage.page w)).
Proof.
  split_and!; try done.
  - intros []; set_solver.
  - by intros [].
  - by intros [].
  - by intros [].
Qed.

(** *** The number of tests *)

(** C7. The total number of tests the analysis page reports for a
    mapping with [m] moderators and [k] outcomes is [m * k]: the number of
    (moderator, outcome) pairs, each counted once. *)
Theorem total_tests_counts_pairs (s : AnalysisSettings.t) :
  let vm := AnalysisSettings.variable_mapping s in
  AnalysisPage.total_tests s
    = (length (VariableMapping.moderators vm) * length (VariableMapping.outcomes vm))%nat ∧
  AnalysisPage.total_tests s = length (Spec.pairs vm) ∧
  (∀ m o, (m, o) ∈ Spec.pairs vm ↔
          m ∈ VariableMapping.moderators vm ∧ o ∈ VariableMapping.outcomes vm).
Proof.
  intros vm. unfold AnalysisPage.total_tests, Spec.pairs. fold vm. split_and!.
  - done.
  - by rewrite length_prod.
  - intros m o. by rewrite !list_elem_of_In, in_prod_iff.
Qed.

Section analysis_page.
Context `{!JSON UploadResponse.t}.

(** *** Awaited calls *)

Lemma settle_Some (c : AnalysisPage.Call) (w w' : AnalysisPage.World) :
  AnalysisPage.settle c w = Some w' →
  AnalysisPage.page w' = AnalysisPage.page w ∧
  AnalysisPage.browser w' = AnalysisPage.browser w ∧
  AnalysisPage.sent w' = AnalysisPage.sent w.
Proof.
  destruct c; unfold AnalysisPage.settle; simpl;
    [destruct (AnalysisPage.starts_in_flight w)
    |destruct (AnalysisPage.polls_in_flight w)
    |destruct (AnalysisPage.cancels_in_flight w)];
    intros; by simplify_eq/=.
Qed.

Lemma settle_poll (w w' : AnalysisPage.World) :
  AnalysisPage.settle AnalysisPage.call_poll w = Some w' →
  AnalysisPage.polls_in_flight w = S (AnalysisPage.polls_in_flight w').
Proof.
  unfold AnalysisPage.settle. destruct (AnalysisPage.polls_in_flight w);
    intros; by simplify_eq/=.
Qed.

Lemma poll_settled_polls (r : Api.Settled JobStatus.t) (w : AnalysisPage.World) :
  AnalysisPage.polls_in_flight (AnalysisPage.poll_settled r w)
    = AnalysisPage.polls_in_flight w ∧
  AnalysisPage.sent (AnalysisPage.poll_settled r w) = AnalysisPage.sent w.
Proof.
  destruct r as [status|]; simpl; [|done].
  by repeat case_match.
Qed.

Lemma poll_settled_not_running (r : Api.Settled JobStatus.t) (w : AnalysisPage.World) :
  AnalysisPage.isRunning (AnalysisPage.page w) = false →
  AnalysisPage.isRunning (AnalysisPage.page (AnalysisPage.poll_settled r w)) = false.
Proof.
  destruct r as [status|]; simpl; [|done].
  by repeat case_match.
Qed.

(** *** After the interval is cleared *)

(** While [isRunning] is false no interval is set. *)
Lemma no_interval_when_stopped (w : AnalysisPage.World) :
  AnalysisPage.isRunning (AnalysisPage.page w) = false →
  AnalysisPage.step AnalysisPage.IntervalTick w = None.
Proof.
  intros Hstop. simpl. unfold AnalysisPage.poll_begin, AnalysisPage.interval_job.
  by rewrite Hstop.
Qed.

(** A polling event of a stopped page is the settlement of a poll that was
    in flight; the page stays stopped and sends nothing. *)
Lemma polling_step_stopped (e : AnalysisPage.Event) (w w' : AnalysisPage.World) :
  AnalysisPage.polling e = true →
  AnalysisPage.isRunning (AnalysisPage.page w) = false →
  AnalysisPage.step e w = Some w' →
  AnalysisPage.isRunning (AnalysisPage.page w') = false ∧
  AnalysisPage.polls_in_flight w = S (AnalysisPage.polls_in_flight w') ∧
  AnalysisPage.sent w' = AnalysisPage.sent w.
Proof.
  intros Hpoll Hstop Hstep. destruct e; try done.
  - by rewrite no_interval_when_stopped in Hstep.
  - unfold AnalysisPage.step in Hstep.
    destruct (AnalysisPage.settle _ w) as [w1|] eqn:Hsettle; [|done].
    cbn [fmap option_fmap option_map] in Hstep. injection Hstep as <-.
    destruct (settle_Some _ _ _ Hsettle) as (Hpage & _ & Hsent).
    destruct (poll_settled_polls r w1) as [Hpolls Hsent'].
    split_and!.
    + apply poll_settled_not_running. by rewrite Hpage.
    + rewrite Hpolls. by apply settle_poll.
    + by rewrite Hsent', Hsent.
Qed.

Lemma polling_run_stopped (es : list AnalysisPage.Event) (w w' : AnalysisPage.World) :
  forallb AnalysisPage.polling es = true →
  AnalysisPage.isRunning (AnalysisPage.page w) = false →
  AnalysisPage.run es w = Some w' →
  AnalysisPage.polls_in_flight w = (length es + AnalysisPage.polls_in_flight w')%nat ∧
  AnalysisPage.sent w' = AnalysisPage.sent w.
Proof.
  revert w. induction es as [|e es IH]; intros w Hall Hstop Hrun.
  - by simplify_eq/=.
  - simpl in Hall. apply andb_true_iff in Hall as [He Hall].
    cbn [AnalysisPage.run] in Hrun.
    destruct (AnalysisPage.step e w) as [w1|] eqn:Hstep; simplify_eq/=.
    destruct (polling_step_stopped _ _ _ He Hstop Hstep) as (Hstop1 & Hpolls & Hsent).
    destruct (IH w1 Hall Hstop1 Hrun) as [Hpolls' Hsent'].
    split; [lia | congruence].
Qed.

(** C4. When the cancel call succeeds the page stops: [isRunning] becomes
    false, so the polling interval is cleared and no status request is
    sent any more; the polling loop writes progress and status again only
    for the requests that were already in flight, and not at all when
    none is.  The cancel handler does not touch the job status or the
    progress the page holds. *)
Theorem cancel_stops_polling (w w' : AnalysisPage.World) :
  AnalysisPage.step (AnalysisPage.CancelSettled (Api.Fulfilled ())) w = Some w' →
  AnalysisPage.isRunning (AnalysisPage.page w') = false ∧
  AnalysisPage.jobStatus (AnalysisPage.page w') = AnalysisPage.jobStatus (AnalysisPage.page w) ∧
  AnalysisPage.progress (AnalysisPage.page w') = AnalysisPage.progress (AnalysisPage.page w) ∧
  AnalysisPage.step AnalysisPage.IntervalTick w' = None ∧
  ∀ es w'',
    forallb AnalysisPage.polling es = true →
    AnalysisPage.run es w' = Some w'' →
    AnalysisPage.sent w'' = AnalysisPage.sent w' ∧
    (length es ≤ AnalysisPage.polls_in_flight w')%nat ∧
    (AnalysisPage.polls_in_flight w' = 0 → w'' = w').
Proof.
  intros Hstep. unfold AnalysisPage.step in Hstep.
  destruct (AnalysisPage.settle _ w) as [w1|] eqn:Hsettle; [|done].
  cbn [fmap option_fmap option_map] in Hstep.
  assert (w' = AnalysisPage.cancel_settled (Api.Fulfilled ()) w1) as -> by congruence.
  clear Hstep.
  destruct (settle_Some _ _ _ Hsettle) as (Hpage & _ & _).
  pose proof (eq_refl : AnalysisPage.isRunning
    (AnalysisPage.page (AnalysisPage.cancel_settled (Api.Fulfilled ()) w1)) = false)
    as Hstop.
  pose proof (eq_refl : AnalysisPage.jobStatus
    (AnalysisPage.page (AnalysisPage.cancel_settled (Api.Fulfilled ()) w1))
    = AnalysisPage.jobStatus (AnalysisPage.page w1)) as Hjob.
  pose proof (eq_refl : AnalysisPage.progress
    (AnalysisPage.page (AnalysisPage.cancel_settled (Api.Fulfilled ()) w1))
    = AnalysisPage.progress (AnalysisPage.page w1)) as Hprogress.
  rewrite Hpage in Hjob, Hprogress.
  revert Hstop Hjob Hprogress.
  generalize (AnalysisPage.cancel_settled (Api.Fulfilled ()) w1).
  intros w' Hstop Hjob Hprogress. split_and!; try done.
  - by apply no_interval_when_stopped.
  - intros es w'' Hall Hrun.
    destruct (polling_run_stopped es _ _ Hall Hstop Hrun) as [Hpolls Hsent].
    split_and!; [done | lia |].
    intros Hnone. destruct es as [|e es]; [by simplify_eq/=|].
    rewrite Hnone in Hpolls. simpl in Hpolls. lia.
Qed.

(** *** Submitting the analysis *)

(** C8. Submitting sends one request: a POST to the run endpoint whose
    body is the pair of the stored job id and the page's settings; when
    the call is fulfilled, the job status it returned becomes the page's
    current job status. *)
Theorem submit_sends_request_and_stores_status
    (w : AnalysisPage.World) (s : AnalysisSettings.t) (job_id : option string) :
  AnalysisPage.settings (AnalysisPage.page w) = Some s →
  AnalysisPage.isRunning (AnalysisPage.page w) = false →
  AnalysisPage.stored_job_id (AnalysisPage.browser w) = Some job_id →
  ∃ w1,
    AnalysisPage.step AnalysisPage.ClickStart w = Some w1 ∧
    AnalysisPage.sent w1 =
      (AnalysisPage.sent w ++
        [{| Api.method := Api.POST; Api.url := "/api/run";
            Api.data := Some {| AnalysisRequest.job_id := job_id;
                                AnalysisRequest.settings := s |} |}])%list ∧
    ∀ result : JobStatus.t, ∃ w2,
      AnalysisPage.step (AnalysisPage.StartSettled (Api.Fulfilled result)) w1 = Some w2 ∧
      AnalysisPage.jobStatus (AnalysisPage.page w2) = Some result ∧
      AnalysisPage.sent w2 = AnalysisPage.sent w1.
Proof.
  intros Hs Hrun Hjob. eexists. split_and!.
  - simpl. rewrite Hs, Hrun. simpl. reflexivity.
  - unfold AnalysisPage.handleStartAnalysis. rewrite Hs. simpl. by rewrite Hjob.
  - intros result. unfold AnalysisPage.handleStartAnalysis. rewrite Hs. simpl.
    rewrite Hjob. eexists. split_and!; reflexivity.
Qed.

(** Whenever a start call is fulfilled, whatever happened meanwhile, the
    returned job status is stored. *)
Lemma start_fulfilled_stores_status
    (w w' : AnalysisPage.World) (result : JobStatus.t) :
  AnalysisPage.step (AnalysisPage.StartSettled (Api.Fulfilled result)) w = Some w' →
  AnalysisPage.jobStatus (AnalysisPage.page w') = Some result.
Proof.
  unfold AnalysisPage.step. destruct (AnalysisPage.settle _ w); intros; by simplify_eq/=.
Qed.

(** *** A stopped page with nothing in flight *)

(** Short of a new start, such a page can only be reset; what it shows as
    the job status stays, or is dropped. *)
Lemma quiescent_step (e : AnalysisPage.Event) (w w' : AnalysisPage.World) :
  AnalysisPage.restart e = false →
  AnalysisPage.quiescent w →
  AnalysisPage.step e w = Some w' →
  AnalysisPage.quiescent w' ∧
  (AnalysisPage.shown_status w' = AnalysisPage.shown_status w ∨
   AnalysisPage.shown_status w' = None).
Proof.
  intros He (Hstop & Hstarts & Hpolls & Hcancels) Hstep.
  destruct e; try done; unfold AnalysisPage.step in Hstep.
  - unfold AnalysisPage.settle in Hstep. by rewrite Hstarts in Hstep.
  - fold (AnalysisPage.step AnalysisPage.IntervalTick w) in Hstep.
    by rewrite no_interval_when_stopped in Hstep.
  - unfold AnalysisPage.settle in Hstep. by rewrite Hpolls in Hstep.
  - by rewrite Hstop, andb_false_r in Hstep.
  - unfold AnalysisPage.settle in Hstep. by rewrite Hcancels in Hstep.
  - case_match; [|done]. simplify_eq. split; [done | by right].
Qed.

Lemma quiescent_run (es : list AnalysisPage.Event) (w w' : AnalysisPage.World) :
  forallb (negb ∘ AnalysisPage.restart) es = true →
  AnalysisPage.quiescent w →
  AnalysisPage.run es w = Some w' →
  AnalysisPage.shown_status w' = AnalysisPage.shown_status w ∨
  AnalysisPage.shown_status w' = None.
Proof.
  revert w. induction es as [|e es IH]; intros w Hall Hq Hrun.
  - left. by simplify_eq/=.
  - simpl in Hall. apply andb_true_iff in Hall as [He%negb_true_iff Hall].
    cbn [AnalysisPage.run] in Hrun.
    destruct (AnalysisPage.step e w) as [w1|] eqn:Hstep; [|done].
    cbn [mbind option_bind] in Hrun.
    destruct (quiescent_step _ _ _ He Hq Hstep) as [Hq1 Hstatus].
    destruct (IH w1 Hall Hq1 Hrun) as [Hsame | Hnone]; [|by right].
    rewrite Hsame. done.
Qed.

End analysis_page.

(** ** The results page *)

Lemma filter_sublist {A} (f : A → bool) (l : list A) : sublist (List.filter f l) l.
Proof.
  induction l as [|x l IH]; simpl; [constructor|].
  destruct (f x); by constructor.
Qed.

Lemma filter_filter {A} (f g : A → bool) (l : list A) :
  List.filter g (List.filter f l) = List.filter (fun x => f x && g x) l.
Proof.
  induction l as [|x l IH]; simpl; [done|].
  destruct (f x); simpl; [destruct (g x)|]; by rewrite ?IH.
Qed.

Lemma filter_true {A} (l : list A) : List.filter (fun _ => true) l = l.
Proof. induction l; simpl; congruence. Qed.

(** [applyFilters] is one filter, by the conjunction of what is enabled. *)
Lemma applyFilters_enabled (res : AnalysisResult.t)
    (shown : list InteractionResult.t) (f : ResultsPage.Filter.t) :
  ResultsPage.filteredResults
    (ResultsPage.applyFilters
       {| ResultsPage.result := Some res; ResultsPage.filteredResults := shown;
          ResultsPage.filter := f |})
  = List.filter (Spec.enabled f) (AnalysisResult.results res).
Proof.
  unfold ResultsPage.applyFilters, Spec.enabled; simpl.
  destruct (ResultsPage.Filter.significant f),
    (truthy (ResultsPage.Filter.moderator f)),
    (truthy (ResultsPage.Filter.outcome f));
    rewrite ?filter_filter; simpl;
    first [ apply filter_ext; intros r; by rewrite ?andb_true_r, ?andb_assoc
          | symmetry; apply filter_true ].
Qed.

(** C10. For every result set and every filter state, the filtered list
    is the full result list filtered, in order, by the conjunction of the
    enabled predicates ([q_interaction < 0.05] when the significant filter
    is on, equality of the moderator when one is selected, equality of
    the outcome when one is selected); with every filter off, and after a
    click on reset, it is the full list unchanged. *)
Theorem applyFilters_subsequence (res : AnalysisResult.t)
    (shown : list InteractionResult.t) (f : ResultsPage.Filter.t) :
  let st := {| ResultsPage.result := Some res;
               ResultsPage.filteredResults := shown;
               ResultsPage.filter := f |} in
  ResultsPage.filteredResults (ResultsPage.applyFilters st)
    = List.filter (Spec.enabled f) (AnalysisResult.results res) ∧
  sublist (ResultsPage.filteredResults (ResultsPage.applyFilters st))
    (AnalysisResult.results res) ∧
  (∀ r, r ∈ ResultsPage.filteredResults (ResultsPage.applyFilters st) ↔
        r ∈ AnalysisResult.results res ∧ Spec.enabled f r = true) ∧
  ResultsPage.filteredResults
    (ResultsPage.setFilter
       {| ResultsPage.Filter.significant := false;
          ResultsPage.Filter.moderator := "";
          ResultsPage.Filter.outcome := "" |} st)
    = AnalysisResult.results res ∧
  ResultsPage.filteredResults (ResultsPage.click_reset st)
    = AnalysisResult.results res.
Proof.
  intros st. unfold st. rewrite applyFilters_enabled. split_and!.
  - done.
  - apply filter_sublist.
  - intros r. by rewrite !list_elem_of_In, filter_In.
  - unfold ResultsPage.setFilter.
    cbn [ResultsPage.result ResultsPage.filteredResults ResultsPage.filter].
    rewrite applyFilters_enabled. apply filter_true.
  - unfold ResultsPage.click_reset, ResultsPage.setFilter.
    cbn [ResultsPage.result ResultsPage.filteredResults ResultsPage.filter].
    rewrite applyFilters_enabled. apply filter_true.
Qed.

(** C2. A pair is counted and marked as significant exactly when its
    [q_interaction] is below the constant 0.05: in the list behind the
    count of significant results, in the significant-only filter, in the
    highlighting of its row and in its significance mark.  The results
    page does not read [fdr_alpha]. *)
Theorem significance_threshold_fixed (res : AnalysisResult.t)
    (shown : list InteractionResult.t) (row : InteractionResult.t) :
  (row ∈ ResultsPage.significantResults res ↔
     row ∈ AnalysisResult.results res ∧ Spec.significant_at 0.05 row) ∧
  (row ∈ ResultsPage.filteredResults
           (ResultsPage.applyFilters
              {| ResultsPage.result := Some res;
                 ResultsPage.filteredResults := shown;
                 ResultsPage.filter :=
                   {| ResultsPage.Filter.significant := true;
                      ResultsPage.Filter.moderator := "";
                      ResultsPage.Filter.outcome := "" |} |}) ↔
     row ∈ AnalysisResult.results res ∧ Spec.significant_at 0.05 row) ∧
  (ResultsPage.row_className row = "bg-green-50" ↔ Spec.significant_at 0.05 row) ∧
  (ResultsPage.getSignificanceText (InteractionResult.q_interaction row) ≠ "ns" ↔
     Spec.significant_at 0.05 row).
Proof.
  unfold Spec.significant_at. split_and!.
  - unfold ResultsPage.significantResults.
    by rewrite !list_elem_of_In, filter_In, Qltb_true.
  - rewrite applyFilters_enabled, !list_elem_of_In, filter_In.
    unfold Spec.enabled; simpl. by rewrite !andb_true_r, Qltb_true.
  - unfold ResultsPage.row_className. rewrite <- Qltb_true.
    by destruct (Qltb _ _).
  - unfold ResultsPage.getSignificanceText.
    set (q := InteractionResult.q_interaction row).
    destruct (Qltb q 0.001) eqn:H1; [|destruct (Qltb q 0.01) eqn:H2;
      [|destruct (Qltb q 0.05) eqn:H3]].
    + apply Qltb_true in H1. split; [intros _|done].
      eapply Qlt_trans; [exact H1 | done].
    + apply Qltb_true in H2. split; [intros _|done].
      eapply Qlt_trans; [exact H2 | done].
    + apply Qltb_true in H3. done.
    + apply Qltb_false in H3. split; [done|].
      intros Hlt. by apply Qlt_not_le in Hlt.
Qed.

(** * Further properties of the pages *)

(** ** Arrays of strings *)

Lemma includes_true (l : list string) (x : string) : includes l x = true ↔ x ∈ l.
Proof.
  unfold includes. rewrite existsb_exists, list_elem_of_In. split.
  - intros (y & Hin & Heq). apply String.eqb_eq in Heq. by subst.
  - intros Hin. exists x. by rewrite String.eqb_refl.
Qed.

Lemma includes_false (l : list string) (x : string) : includes l x = false ↔ x ∉ l.
Proof. rewrite <- includes_true. by destruct (includes l x). Qed.

Lemma filter_ne_elem_of (col x : string) (l : list string) :
  x ∈ List.filter (fun m => negb (String.eqb m col)) l ↔ x ∈ l ∧ x ≠ col.
Proof.
  rewrite !list_elem_of_In, filter_In, negb_true_iff, String.eqb_neq. done.
Qed.

Lemma filter_NoDup {A} (f : A → bool) (l : list A) : NoDup l → NoDup (List.filter f l).
Proof.
  induction 1 as [|x l Hx Hl IH]; simpl; [constructor|].
  destruct (f x); [|done]. constructor; [|done].
  rewrite list_elem_of_In, filter_In, <- list_elem_of_In. tauto.
Qed.

Lemma filter_ne_absent (col : string) (l : list string) :
  col ∉ l → List.filter (fun m => negb (String.eqb m col)) l = l.
Proof.
  induction l as [|x l IH]; [done|]. intros Hnot%not_elem_of_cons. simpl.
  destruct Hnot as [Hne Hnot]. apply not_eq_sym, String.eqb_neq in Hne.
  rewrite Hne. simpl. by rewrite IH.
Qed.

Lemma filter_ne_app (col : string) (l : list string) :
  col ∉ l → List.filter (fun m => negb (String.eqb m col)) (l ++ [col])%list = l.
Proof.
  intros Hnot. rewrite List.filter_app, filter_ne_absent by done. simpl.
  rewrite String.eqb_refl. simpl. apply app_nil_r.
Qed.

(** Taking an element out of a duplicate-free list and putting it at the
    end rearranges the list. *)
Lemma filter_ne_snoc_Permutation (col : string) (l : list string) :
  NoDup l → col ∈ l →
  (List.filter (fun m => negb (String.eqb m col)) l ++ [col])%list ≡ₚ l.
Proof.
  induction 1 as [|x l Hx Hl IH]; [by intros ?%elem_of_nil|].
  intros [-> | Hin]%elem_of_cons; simpl.
  - rewrite String.eqb_refl. simpl. rewrite filter_ne_absent by done.
    symmetry. apply Permutation_cons_append.
  - assert (x ≠ col) as Hne by (intros ->; done).
    apply String.eqb_neq in Hne. rewrite Hne. simpl. by rewrite IH.
Qed.

(** *** [new Set] *)

Lemma distinct_from_elem_of (seen l : list string) (x : string) :
  x ∈ distinct_from seen l ↔ x ∈ l ∧ x ∉ seen.
Proof.
  revert seen. induction l as [|y l IH]; intros seen; simpl.
  - split; [by intros ?%elem_of_nil | by intros [?%elem_of_nil _]].
  - destruct (includes seen y) eqn:Hy.
    + apply includes_true in Hy. rewrite IH, elem_of_cons.
      split; [tauto|]. intros [[-> | Hin] Hnot]; [done | tauto].
    + apply includes_false in Hy.
      rewrite !elem_of_cons, IH, not_elem_of_cons. split.
      * intros [-> | (Hin & Hne & Hnot)]; tauto.
      * intros [[-> | Hin] Hnot]; [by left|].
        destruct (decide (x = y)) as [-> | Hne]; [by left | right; tauto].
Qed.

Lemma distinct_from_NoDup (seen l : list string) : NoDup (distinct_from seen l).
Proof.
  revert seen. induction l as [|y l IH]; intros seen; simpl; [constructor|].
  destruct (includes seen y); [done|]. constructor; [|done].
  rewrite distinct_from_elem_of, not_elem_of_cons. tauto.
Qed.

Lemma distinct_from_sublist (seen l : list string) : sublist (distinct_from seen l) l.
Proof.
  revert seen. induction l as [|y l IH]; intros seen; simpl; [constructor|].
  destruct (includes seen y); by constructor.
Qed.

Lemma distinct_elem_of (l : list string) (x : string) : x ∈ distinct l ↔ x ∈ l.
Proof.
  unfold distinct. rewrite distinct_from_elem_of.
  split; [tauto|]. intros Hin. split; [done | apply not_elem_of_nil].
Qed.

Lemma distinct_NoDup (l : list string) : NoDup (distinct l).
Proof. apply distinct_from_NoDup. Qed.

(** A duplicate-free array is its own set. *)
Lemma distinct_from_id (seen l : list string) :
  NoDup l → (∀ x, x ∈ l → x ∉ seen) → distinct_from seen l = l.
Proof.
  revert seen. induction l as [|y l IH]; intros seen Hl Hseen; [done|].
  apply NoDup_cons in Hl as [Hy Hl]. simpl.
  assert (includes seen y = false) as ->
    by (apply includes_false, Hseen; by left).
  f_equal. apply IH; [done|].
  intros x Hx [-> | Hin]%elem_of_cons; [done|].
  by apply (Hseen x); [right|].
Qed.

(** ** The settings page, further *)

Section settings_page_further.
Context `{!JSON AnalysisSettings.t, !JSON UploadResponse.t}.

Local Abbreviation moderators_of st :=
  (VariableMapping.moderators
     (AnalysisSettings.variable_mapping (SettingsPage.settings st))).
Local Abbreviation outcomes_of st :=
  (VariableMapping.outcomes
     (AnalysisSettings.variable_mapping (SettingsPage.settings st))).
Local Abbreviation intervention_of st :=
  (VariableMapping.intervention
     (AnalysisSettings.variable_mapping (SettingsPage.settings st))).

(** *** The check boxes *)

Lemma click_moderator_list (col : string) (st : SettingsPage.State) :
  moderators_of (SettingsPage.click_moderator col st) =
    if includes (moderators_of st) col
    then List.filter (fun m => negb (String.eqb m col)) (moderators_of st)
    else (moderators_of st ++ [col])%list.
Proof.
  unfold SettingsPage.click_moderator, SettingsPage.toggle_moderator; simpl.
  by destruct (includes _ col).
Qed.

Lemma click_outcome_list (col : string) (st : SettingsPage.State) :
  outcomes_of (SettingsPage.click_outcome col st) =
    if includes (outcomes_of st) col
    then List.filter (fun o => negb (String.eqb o col)) (outcomes_of st)
    else (outcomes_of st ++ [col])%list.
Proof.
  unfold SettingsPage.click_outcome, SettingsPage.toggle_outcome; simpl.
  by destruct (includes _ col).
Qed.

(** X1. A click on a moderator check box flips the membership of its
    column and of no other, keeps the moderators free of duplicates, and
    leaves the outcomes and the intervention alone. *)
Theorem click_moderator_flips (col : string) (st : SettingsPage.State) :
  NoDup (moderators_of st) →
  NoDup (moderators_of (SettingsPage.click_moderator col st)) ∧
  (col ∈ moderators_of (SettingsPage.click_moderator col st) ↔
     col ∉ moderators_of st) ∧
  (∀ x, x ≠ col →
     (x ∈ moderators_of (SettingsPage.click_moderator col st) ↔
        x ∈ moderators_of st)) ∧
  outcomes_of (SettingsPage.click_moderator col st) = outcomes_of st ∧
  intervention_of (SettingsPage.click_moderator col st) = intervention_of st.
Proof.
  intros Hnodup. rewrite click_moderator_list.
  destruct (includes _ col) eqn:Hcol.
  - apply includes_true in Hcol. split_and!; try done.
    + by apply filter_NoDup.
    + rewrite filter_ne_elem_of. tauto.
    + intros x Hne. rewrite filter_ne_elem_of. tauto.
  - apply includes_false in Hcol. split_and!; try done.
    + apply NoDup_app. split_and!; [done | | apply NoDup_singleton].
      intros x Hx ->%list_elem_of_singleton. done.
    + rewrite elem_of_app, list_elem_of_singleton. tauto.
    + intros x Hne. rewrite elem_of_app, list_elem_of_singleton. tauto.
Qed.

(** X2. Two clicks on the same moderator check box give back the
    selection: unchanged when the column was not selected, rearranged
    (the column moves to the end) when it was. *)
Theorem click_moderator_twice (col : string) (st : SettingsPage.State) :
  NoDup (moderators_of st) →
  moderators_of (SettingsPage.click_moderator col (SettingsPage.click_moderator col st))
    ≡ₚ moderators_of st ∧
  (col ∉ moderators_of st →
   moderators_of (SettingsPage.click_moderator col (SettingsPage.click_moderator col st))
     = moderators_of st).
Proof.
  intros Hnodup. rewrite !click_moderator_list.
  destruct (includes (moderators_of st) col) eqn:Hcol.
  - apply includes_true in Hcol.
    assert (includes (List.filter (fun m => negb (String.eqb m col)) (moderators_of st)) col
            = false) as ->.
    { apply includes_false. rewrite filter_ne_elem_of. tauto. }
    split; [by apply filter_ne_snoc_Permutation | done].
  - apply includes_false in Hcol.
    assert (includes (moderators_of st ++ [col])%list col = true) as ->.
    { apply includes_true. rewrite elem_of_app, list_elem_of_singleton. tauto. }
    rewrite filter_ne_app by done. done.
Qed.

(** *** The default mapping *)

Lemma defaultModerators_elem_of (columns : list ColumnInfo.t) (x : string) :
  x ∈ SettingsPage.defaultModerators columns ↔
  x ∈ map ColumnInfo.name columns ∧ SettingsPage.match_one_of "B" "F" x = true.
Proof.
  unfold SettingsPage.defaultModerators.
  rewrite !list_elem_of_In, !in_map_iff. setoid_rewrite filter_In. split.
  - intros (c & <- & Hin & Hm). eauto.
  - intros [(c & <- & Hin) Hm]. eauto.
Qed.

Lemma defaultOutcomes_elem_of (columns : list ColumnInfo.t) (x : string) :
  x ∈ SettingsPage.defaultOutcomes columns ↔
  x ∈ map ColumnInfo.name columns ∧ SettingsPage.match_one_of "G" "R" x = true.
Proof.
  unfold SettingsPage.defaultOutcomes.
  rewrite !list_elem_of_In, !in_map_iff. setoid_rewrite filter_In. split.
  - intros (c & <- & Hin & Hm). eauto.
  - intros [(c & <- & Hin) Hm]. eauto.
Qed.

(** X3. The default mapping names uploaded columns only, in the order of
    the upload: the default moderators and the default outcomes are
    subsequences of the column names, made of exactly the names that are
    one letter of their class, and the default intervention is [S] when
    a column has that name and empty otherwise. *)
Theorem default_mapping_names_columns (columns : list ColumnInfo.t) :
  let names := map ColumnInfo.name columns in
  sublist (SettingsPage.defaultModerators columns) names ∧
  sublist (SettingsPage.defaultOutcomes columns) names ∧
  (∀ x, x ∈ SettingsPage.defaultModerators columns ↔
        x ∈ names ∧ SettingsPage.match_one_of "B" "F" x = true) ∧
  (∀ x, x ∈ SettingsPage.defaultOutcomes columns ↔
        x ∈ names ∧ SettingsPage.match_one_of "G" "R" x = true) ∧
  (SettingsPage.defaultIntervention columns = "S" ↔ "S" ∈ names) ∧
  (SettingsPage.defaultIntervention columns = "" ↔ "S" ∉ names).
Proof.
  intros names. subst names. split_and!.
  - apply (fmap_sublist ColumnInfo.name), filter_sublist.
  - apply (fmap_sublist ColumnInfo.name), filter_sublist.
  - apply defaultModerators_elem_of.
  - apply defaultOutcomes_elem_of.
  - apply defaultIntervention_present.
  - rewrite <- defaultIntervention_present.
    destruct (defaultIntervention_cases columns) as [-> | ->]; by split.
Qed.

(** *** Leaving the page with the defaults *)

Lemma toast_ne_navigate (x : Toast) (path key value : string) (b : Browser.t) :
  Browser.toast x b ≠ Browser.navigate path (Browser.setItem key value b).
Proof.
  intros Heq. apply (f_equal Browser.toasts) in Heq. simpl in Heq.
  apply (f_equal length) in Heq. rewrite length_app in Heq. simpl in Heq. lia.
Qed.

Lemma handleNext_accepted (st : SettingsPage.State) (b : Browser.t) :
  SettingsPage.handleNext st b =
    Browser.navigate "/analysis"
      (Browser.setItem "analysisSettings" (stringify (SettingsPage.settings st)) b)
  ↔ moderators_of st ≠ [] ∧ outcomes_of st ≠ [] ∧ intervention_of st ≠ "".
Proof.
  unfold SettingsPage.handleNext.
  destruct (moderators_of st) as [|m ms]; simpl.
  { split; [by intros ?%toast_ne_navigate | by intros [? _]]. }
  destruct (outcomes_of st) as [|o os]; simpl.
  { split; [by intros ?%toast_ne_navigate | by intros (_ & ? & _)]. }
  destruct (intervention_of st) as [|c i]; simpl.
  { split; [by intros ?%toast_ne_navigate | by intros (_ & _ & ?)]. }
  done.
Qed.

Lemma parsed_nonempty {A} `{!JSON A} (saved : string) (v : A) :
  parse saved = Some v → truthy saved = true.
Proof.
  intros Hparse. apply truthy_true. intros ->. by rewrite parse_empty in Hparse.
Qed.

(** X4. When the settings page mounts on a stored upload result, the user
    can go on to the analysis with the default mapping untouched exactly
    when the upload has a column named by one letter of [B-F], one named
    by one letter of [G-R], and a column named [S]. *)
Theorem mounted_defaults_accepted (st : SettingsPage.State) (b : Browser.t)
    (saved : string) (result : UploadResponse.t) :
  Browser.getItem "uploadResult" b = Some saved →
  parse saved = Some result →
  let names := map ColumnInfo.name (UploadResponse.columns result) in
  ∃ st',
    SettingsPage.on_mount st b = Some (st', b) ∧
    SettingsPage.uploadResult st' = Some result ∧
    (SettingsPage.handleNext st' b =
       Browser.navigate "/analysis"
         (Browser.setItem "analysisSettings" (stringify (SettingsPage.settings st')) b)
     ↔ (∃ x, x ∈ names ∧ SettingsPage.match_one_of "B" "F" x = true) ∧
       (∃ x, x ∈ names ∧ SettingsPage.match_one_of "G" "R" x = true) ∧
       "S" ∈ names).
Proof.
  intros Hsaved Hparse names. subst names. unfold SettingsPage.on_mount.
  rewrite Hsaved, (parsed_nonempty _ _ Hparse), Hparse.
  eexists. split_and!; [done | done |].
  rewrite handleNext_accepted. simpl.
  rewrite <- defaultIntervention_present.
  assert (∀ l : list string, l ≠ [] ↔ ∃ x, x ∈ l) as Hne.
  { intros [|x l]; split; try done.
    - intros [x Hx]. by apply elem_of_nil in Hx.
    - intros _. exists x. by left. }
  rewrite !Hne.
  setoid_rewrite defaultModerators_elem_of.
  setoid_rewrite defaultOutcomes_elem_of.
  destruct (defaultIntervention_cases (UploadResponse.columns result)) as [-> | ->];
    intuition congruence.
Qed.

(** *** Loading, importing and exporting *)

(** X5. Loading and importing never write to [localStorage], never
    navigate and never touch the upload result; the settings change only
    to the value parsed from the stored text, or from the file. *)
Theorem load_and_import_change_settings_only
    (st : SettingsPage.State) (b : Browser.t) (file : option string) :
  let loaded := SettingsPage.handleLoadSettings st b in
  let imported := SettingsPage.handleImportSettings file st b in
  Browser.localStorage loaded.2 = Browser.localStorage b ∧
  Browser.location loaded.2 = Browser.location b ∧
  SettingsPage.uploadResult loaded.1 = SettingsPage.uploadResult st ∧
  Browser.localStorage imported.2 = Browser.localStorage b ∧
  Browser.location imported.2 = Browser.location b ∧
  SettingsPage.uploadResult imported.1 = SettingsPage.uploadResult st ∧
  (SettingsPage.settings loaded.1 = SettingsPage.settings st ∨
   ∃ saved, Browser.getItem "analysisSettings" b = Some saved ∧
            parse saved = Some (SettingsPage.settings loaded.1)) ∧
  (SettingsPage.settings imported.1 = SettingsPage.settings st ∨
   ∃ content, file = Some content ∧
              parse content = Some (SettingsPage.settings imported.1)).
Proof.
  intros loaded imported. subst loaded imported.
  unfold SettingsPage.handleLoadSettings, SettingsPage.handleImportSettings.
  destruct (Browser.getItem _ b) as [saved|] eqn:Hsaved;
    [destruct (truthy saved); [destruct (parse saved) eqn:Hparse|]|];
    (destruct file as [content|]; [destruct (parse content) eqn:Hfile|]);
    simpl; split_and!; eauto.
Qed.

(** X6. Whatever the settings, the file that the export link downloads
    holds exactly their indented JSON text, under the name
    [analysis_settings.json]; exporting changes nothing else. *)
Theorem export_downloads_the_settings (st : SettingsPage.State) (b : Browser.t) :
  ∃ href,
    Browser.downloads (SettingsPage.handleExportSettings st b)
      = (Browser.downloads b ++ [("analysis_settings.json", href)])%list ∧
    data_url_body href = Some (stringify_indent2 (SettingsPage.settings st)) ∧
    Browser.localStorage (SettingsPage.handleExportSettings st b)
      = Browser.localStorage b ∧
    Browser.location (SettingsPage.handleExportSettings st b) = Browser.location b ∧
    Browser.toasts (SettingsPage.handleExportSettings st b) = Browser.toasts b.
Proof.
  eexists. split_and!; [reflexivity | apply data_url_body_encoded | done..].
Qed.

(** *** From page to page *)

(** X7. When [handleNext] proceeds with settings that survive JSON
    serialization, the analysis page that mounts on the browser it leaves
    finds exactly those settings. *)
Theorem handleNext_hands_settings_over
    (st : SettingsPage.State) (b : Browser.t) (w : AnalysisPage.World) :
  moderators_of st ≠ [] → outcomes_of st ≠ [] → intervention_of st ≠ "" →
  survives stringify (SettingsPage.settings st) →
  AnalysisPage.browser w = SettingsPage.handleNext st b →
  AnalysisPage.on_mount w =
    Some (AnalysisPage.on_page
            (AnalysisPage.setSettings (Some (SettingsPage.settings st))) w).
Proof.
  intros Hm Ho Hi Hsurvives Hbrowser.
  assert (SettingsPage.handleNext st b =
          Browser.navigate "/analysis"
            (Browser.setItem "analysisSettings"
               (stringify (SettingsPage.settings st)) b)) as Hnext
    by by apply handleNext_accepted.
  unfold AnalysisPage.on_mount. rewrite Hbrowser, Hnext.
  unfold Browser.getItem; simpl. rewrite lookup_insert_eq.
  rewrite (survives_nonempty _ _ Hsurvives).
  unfold survives in Hsurvives. by rewrite Hsurvives.
Qed.

(** X8. When an upload is fulfilled with a result that survives JSON
    serialization, the browser is left on the settings page; the settings
    page that mounts there holds that result with the default mapping of
    its columns, and the analysis page reads its job id. *)
Theorem upload_hands_result_over
    (r : UploadPage.State) (b : Browser.t) (result : UploadResponse.t) :
  survives stringify result →
  let b' := (UploadPage.upload_settled (Api.Fulfilled result) r b).2 in
  Browser.location b' = "/settings" ∧
  SettingsPage.on_mount SettingsPage.initial b' =
    Some ({| SettingsPage.uploadResult := Some result;
             SettingsPage.settings :=
               SettingsPage.with_variable_mapping
                 (SettingsPage.default_mapping (UploadResponse.columns result))
                 SettingsPage.initial_settings |}, b') ∧
  AnalysisPage.stored_job_id b' = Some (Some (UploadResponse.job_id result)).
Proof.
  intros Hsurvives b'. subst b'. unfold survives in Hsurvives.
  pose proof (parsed_nonempty _ _ Hsurvives) as Htruthy.
  unfold SettingsPage.on_mount, AnalysisPage.stored_job_id, Browser.getItem; simpl.
  rewrite lookup_insert_eq, Htruthy, Hsurvives. done.
Qed.

(** X19. A rejected upload leaves [localStorage] and the location as they
    were and only adds an error toast: the settings page then mounts as
    it would have before the upload, on the previous upload result if
    one is stored, and redirects to the upload page if none is.  An empty
    drop sends nothing. *)
Theorem upload_rejected_keeps_storage
    (r : UploadPage.State) (b : Browser.t) (detail : string)
    (st : SettingsPage.State) :
  let b' := (UploadPage.upload_settled (Api.Rejected detail) r b).2 in
  Browser.localStorage b' = Browser.localStorage b ∧
  Browser.location b' = Browser.location b ∧
  Browser.toasts b' =
    (Browser.toasts b ++ [toast_error ("アップロードエラー: " ++ detail)])%list ∧
  fst <$> SettingsPage.on_mount st b' = fst <$> SettingsPage.on_mount st b ∧
  (Browser.getItem "uploadResult" b = None →
   (Browser.location ∘ snd) <$> SettingsPage.on_mount st b' = Some "/") ∧
  UploadPage.onDrop [] r = (r, None).
Proof.
  intros b'. subst b'. unfold SettingsPage.on_mount, Browser.getItem. simpl.
  split_and!; try done.
  - destruct (Browser.localStorage b !! "uploadResult") as [saved|]; [|done].
    destruct (truthy saved); [|done]. by destruct (parse saved).
  - by intros ->.
Qed.

End settings_page_further.

(** ** The analysis page, further *)

(** The settlement of a start call. *)
Definition start_settles (e : AnalysisPage.Event) : bool :=
  match e with
  | AnalysisPage.StartSettled _ => true
  | _ => false
  end.

(** One turn of the polling loop whose request is rejected. *)
Definition failing_poll (detail : string) : list AnalysisPage.Event :=
  [AnalysisPage.IntervalTick; AnalysisPage.PollSettled (Api.Rejected detail)].

Section analysis_page_further.
Context `{!JSON UploadResponse.t}.


Lemma run_app (es1 es2 : list AnalysisPage.Event) (w : AnalysisPage.World) :
  AnalysisPage.run (es1 ++ es2) w =
    w1 ← AnalysisPage.run es1 w; AnalysisPage.run es2 w1.
Proof.
  revert w. induction es1 as [|e es1 IH]; intros w; [done|].
  cbn [app AnalysisPage.run].
  destruct (AnalysisPage.step e w) as [w1|]; [|done].
  cbn [mbind option_bind]. apply IH.
Qed.

Lemma failing_poll_turn (w : AnalysisPage.World) (job detail : string) :
  AnalysisPage.interval_job (AnalysisPage.page w) = Some job →
  ∃ w1,
    AnalysisPage.run (failing_poll detail) w = Some w1 ∧
    AnalysisPage.page w1 = AnalysisPage.page w ∧
    AnalysisPage.sent w1 = (AnalysisPage.sent w ++ [Api.getJobStatus job])%list ∧
    Browser.toasts (AnalysisPage.browser w1) = Browser.toasts (AnalysisPage.browser w) ∧
    Browser.location (AnalysisPage.browser w1)
      = Browser.location (AnalysisPage.browser w) ∧
    AnalysisPage.polls_in_flight w1 = AnalysisPage.polls_in_flight w.
Proof.
  intros Hjob. unfold failing_poll. cbn [AnalysisPage.run].
  change (AnalysisPage.step AnalysisPage.IntervalTick w)
    with (AnalysisPage.poll_begin w).
  unfold AnalysisPage.poll_begin. rewrite Hjob.
  simpl. eexists. split; [reflexivity|]. done.
Qed.

(** X10. Status requests that keep being rejected never stop the loop:
    while the interval is set, any number of turns can follow one
    another, each sends a new request for the same job, and the page,
    its toasts and its location stay as they are. *)
Theorem failing_polls_retry (w : AnalysisPage.World) (job : string)
    (detail : string) (n : nat) :
  AnalysisPage.interval_job (AnalysisPage.page w) = Some job →
  ∃ w',
    AnalysisPage.run (concat (replicate n (failing_poll detail))) w = Some w' ∧
    AnalysisPage.page w' = AnalysisPage.page w ∧
    AnalysisPage.sent w' =
      (AnalysisPage.sent w ++ replicate n (Api.getJobStatus job))%list ∧
    Browser.toasts (AnalysisPage.browser w') = Browser.toasts (AnalysisPage.browser w) ∧
    Browser.location (AnalysisPage.browser w')
      = Browser.location (AnalysisPage.browser w) ∧
    AnalysisPage.polls_in_flight w' = AnalysisPage.polls_in_flight w.
Proof.
  revert w. induction n as [|n IH]; intros w Hjob.
  - exists w. simpl. by rewrite app_nil_r.
  - destruct (failing_poll_turn w job detail Hjob)
      as (w1 & Hturn & Hpage1 & Hsent1 & Htoasts1 & Hloc1 & Hpolls1).
    destruct (IH w1) as (w' & Hrun & Hpage & Hsent & Htoasts & Hloc & Hpolls);
      [by rewrite Hpage1|].
    exists w'. split_and!; try congruence.
    + cbn [replicate concat]. rewrite run_app, Hturn. exact Hrun.
    + rewrite Hsent, Hsent1. simpl. by rewrite <- app_assoc.
Qed.

(** X11. A rejected cancel call leaves the page as it was, still running
    if it was, so that the polling goes on; the user is told by an error
    toast, and nothing is sent. *)
Theorem cancel_rejected_keeps_running (w w' : AnalysisPage.World) (detail : string) :
  AnalysisPage.step (AnalysisPage.CancelSettled (Api.Rejected detail)) w = Some w' →
  AnalysisPage.page w' = AnalysisPage.page w ∧
  AnalysisPage.sent w' = AnalysisPage.sent w ∧
  AnalysisPage.polls_in_flight w' = AnalysisPage.polls_in_flight w ∧
  Browser.toasts (AnalysisPage.browser w') =
    (Browser.toasts (AnalysisPage.browser w)
       ++ [toast_error ("キャンセルエラー: " ++ detail)])%list ∧
  AnalysisPage.interval_job (AnalysisPage.page w')
    = AnalysisPage.interval_job (AnalysisPage.page w).
Proof.
  intros Hstep. unfold AnalysisPage.step in Hstep.
  destruct (AnalysisPage.settle _ w) as [w1|] eqn:Hsettle; [|done].
  cbn [fmap option_fmap option_map] in Hstep.
  assert (w' = AnalysisPage.cancel_settled (Api.Rejected detail) w1) as -> by congruence.
  destruct (settle_Some _ _ _ Hsettle) as (Hpage & Hbrowser & Hsent).
  unfold AnalysisPage.settle in Hsettle.
  destruct (AnalysisPage.cancels_in_flight w); [done|].
  injection Hsettle as <-. by simpl.
Qed.

(** X12. While the first start call of a page is awaited (no job status
    yet, the page running, no other call in flight) nothing but its
    settlement changes anything: the page cannot start again, reset,
    poll, or send a cancel request. *)
Theorem pending_start_is_exclusive
    (w w' : AnalysisPage.World) (es : list AnalysisPage.Event) :
  AnalysisPage.jobStatus (AnalysisPage.page w) = None →
  AnalysisPage.isRunning (AnalysisPage.page w) = true →
  AnalysisPage.polls_in_flight w = 0%nat →
  AnalysisPage.cancels_in_flight w = 0%nat →
  forallb (negb ∘ start_settles) es = true →
  AnalysisPage.run es w = Some w' →
  w' = w.
Proof.
  intros Hjob Hrun Hpolls Hcancels. revert w'.
  induction es as [|e es IH]; intros w' Hall Hes; [by simplify_eq/=|].
  simpl in Hall. apply andb_true_iff in Hall as [He%negb_true_iff Hall].
  cbn [AnalysisPage.run] in Hes.
  assert (AnalysisPage.step e w = Some w ∨ AnalysisPage.step e w = None) as [Hstep | Hstep].
  { destruct e; try done; unfold AnalysisPage.step.
    - right. by rewrite Hrun, andb_false_r.
    - right. unfold AnalysisPage.poll_begin, AnalysisPage.interval_job,
        AnalysisPage.current_job_id. by rewrite Hrun, Hjob.
    - right. unfold AnalysisPage.settle. by rewrite Hpolls.
    - destruct (bool_decide _ && _); [left | by right].
      unfold AnalysisPage.handleCancelAnalysis, AnalysisPage.current_job_id.
      by rewrite Hjob.
    - right. unfold AnalysisPage.settle. by rewrite Hcancels.
    - right. rewrite Hjob.
      by destruct (bool_decide (is_Some (AnalysisPage.settings _))). }
  - rewrite Hstep in Hes. cbn [mbind option_bind] in Hes. by apply IH.
  - by rewrite Hstep in Hes.
Qed.

(** X13. A rejected start call puts the page back: it is not running, it
    holds the job status and the progress it held, nothing more was sent,
    and with the settings loaded the start button works again. *)
Theorem start_rejected_can_start_again (w w' : AnalysisPage.World) (detail : string) :
  AnalysisPage.step (AnalysisPage.StartSettled (Api.Rejected detail)) w = Some w' →
  AnalysisPage.isRunning (AnalysisPage.page w') = false ∧
  AnalysisPage.jobStatus (AnalysisPage.page w') = AnalysisPage.jobStatus (AnalysisPage.page w) ∧
  AnalysisPage.progress (AnalysisPage.page w') = AnalysisPage.progress (AnalysisPage.page w) ∧
  AnalysisPage.sent w' = AnalysisPage.sent w ∧
  (is_Some (AnalysisPage.settings (AnalysisPage.page w)) →
   AnalysisPage.step AnalysisPage.ClickStart w' = Some (AnalysisPage.handleStartAnalysis w')).
Proof.
  intros Hstep. unfold AnalysisPage.step in Hstep.
  destruct (AnalysisPage.settle _ w) as [w1|] eqn:Hsettle; [|done].
  cbn [fmap option_fmap option_map] in Hstep.
  assert (w' = AnalysisPage.start_settled (Api.Rejected detail) w1) as -> by congruence.
  destruct (settle_Some _ _ _ Hsettle) as (Hpage & _ & Hsent).
  rewrite <- Hpage, <- Hsent. split_and!; try done.
  intros Hsettings. unfold AnalysisPage.step. simpl.
  by rewrite bool_decide_eq_true_2.
Qed.

End analysis_page_further.

(** ** The results page, further *)

(** *** The marks of significance *)

(** X14. The mark of a q-value is [***] below 0.001, [**] from 0.001 and
    below 0.01, [*] from 0.01 and below 0.05, and [ns] from 0.05; the
    colour classes follow the same four bands. *)
Theorem significance_bands (q : Q) :
  (ResultsPage.getSignificanceText q = "***" ↔ (q < 0.001)%Q) ∧
  (ResultsPage.getSignificanceText q = "**" ↔ (0.001 <= q)%Q ∧ (q < 0.01)%Q) ∧
  (ResultsPage.getSignificanceText q = "*" ↔ (0.01 <= q)%Q ∧ (q < 0.05)%Q) ∧
  (ResultsPage.getSignificanceText q = "ns" ↔ (0.05 <= q)%Q) ∧
  (ResultsPage.getSignificanceColor q = "text-red-600 font-bold" ↔
     ResultsPage.getSignificanceText q = "***") ∧
  (ResultsPage.getSignificanceColor q = "text-red-500 font-semibold" ↔
     ResultsPage.getSignificanceText q = "**") ∧
  (ResultsPage.getSignificanceColor q = "text-orange-500 font-medium" ↔
     ResultsPage.getSignificanceText q = "*") ∧
  (ResultsPage.getSignificanceColor q = "text-gray-500" ↔
     ResultsPage.getSignificanceText q = "ns").
Proof.
  unfold ResultsPage.getSignificanceText, ResultsPage.getSignificanceColor.
  destruct (Qltb q 0.001) eqn:H1; [|destruct (Qltb q 0.01) eqn:H2;
    [|destruct (Qltb q 0.05) eqn:H3]];
    rewrite ?Qltb_true, ?Qltb_false in *;
    split_and!; split; try done; intros; try split; lra.
Qed.

(** *** The options of the filters *)

Section filter_options.
Context `{!ArraySort}.

Lemma sorted_distinct (l : list string) :
  NoDup (sort (distinct l)) ∧
  (∀ x, x ∈ sort (distinct l) ↔ x ∈ l) ∧
  (length (sort (distinct l)) ≤ length l)%nat.
Proof.
  rewrite (sort_permutation (distinct l)). split_and!.
  - apply distinct_NoDup.
  - intros x. by rewrite (sort_permutation (distinct l)), distinct_elem_of.
  - apply sublist_length, distinct_from_sublist.
Qed.

(** X15. The moderators and the outcomes offered by the two filters are
    those occurring in the results, each once, so no more than there are
    results; and every non-empty option, selected alone, shows at least
    one row. *)
Theorem filter_options_select_rows (res : AnalysisResult.t)
    (shown : list InteractionResult.t) :
  let st := {| ResultsPage.result := Some res;
               ResultsPage.filteredResults := shown;
               ResultsPage.filter := ResultsPage.reset_filter |} in
  NoDup (ResultsPage.moderators res) ∧
  NoDup (ResultsPage.outcomes res) ∧
  (∀ m, m ∈ ResultsPage.moderators res ↔
        ∃ r, r ∈ AnalysisResult.results res ∧ InteractionResult.moderator r = m) ∧
  (∀ o, o ∈ ResultsPage.outcomes res ↔
        ∃ r, r ∈ AnalysisResult.results res ∧ InteractionResult.outcome r = o) ∧
  (length (ResultsPage.moderators res) ≤ length (AnalysisResult.results res))%nat ∧
  (length (ResultsPage.outcomes res) ≤ length (AnalysisResult.results res))%nat ∧
  (∀ m, m ∈ ResultsPage.moderators res → m ≠ "" →
     ResultsPage.filteredResults
       (ResultsPage.setFilter
          {| ResultsPage.Filter.significant := false;
             ResultsPage.Filter.moderator := m;
             ResultsPage.Filter.outcome := "" |} st) ≠ []) ∧
  (∀ o, o ∈ ResultsPage.outcomes res → o ≠ "" →
     ResultsPage.filteredResults
       (ResultsPage.setFilter
          {| ResultsPage.Filter.significant := false;
             ResultsPage.Filter.moderator := "";
             ResultsPage.Filter.outcome := o |} st) ≠ []).
Proof.
  intros st. subst st. unfold ResultsPage.moderators, ResultsPage.outcomes.
  destruct (sorted_distinct
              (map InteractionResult.moderator (AnalysisResult.results res)))
    as (Hm1 & Hm2 & Hm3).
  destruct (sorted_distinct
              (map InteractionResult.outcome (AnalysisResult.results res)))
    as (Ho1 & Ho2 & Ho3).
  rewrite length_map in Hm3, Ho3.
  assert (∀ m, m ∈ sort (distinct (map InteractionResult.moderator
                                     (AnalysisResult.results res))) ↔
               ∃ r, r ∈ AnalysisResult.results res ∧ InteractionResult.moderator r = m)
    as Hm.
  { intros m. rewrite Hm2, list_elem_of_fmap.
    split; [intros (r & -> & Hr) | intros (r & Hr & <-)]; eauto. }
  assert (∀ o, o ∈ sort (distinct (map InteractionResult.outcome
                                     (AnalysisResult.results res))) ↔
               ∃ r, r ∈ AnalysisResult.results res ∧ InteractionResult.outcome r = o)
    as Ho.
  { intros o. rewrite Ho2, list_elem_of_fmap.
    split; [intros (r & -> & Hr) | intros (r & Hr & <-)]; eauto. }
  split_and!; try done.
  - intros m (r & Hr & <-)%Hm Hne. unfold ResultsPage.setFilter.
    cbn [ResultsPage.result ResultsPage.filteredResults ResultsPage.filter].
    rewrite applyFilters_enabled. intros Hnil.
    assert (r ∈ List.filter
                  (Spec.enabled
                     {| ResultsPage.Filter.significant := false;
                        ResultsPage.Filter.moderator := InteractionResult.moderator r;
                        ResultsPage.Filter.outcome := "" |})
                  (AnalysisResult.results res)) as Hin.
    { rewrite list_elem_of_In, filter_In, <- list_elem_of_In. split; [done|].
      unfold Spec.enabled; simpl. apply truthy_true in Hne. rewrite Hne.
      by rewrite String.eqb_refl. }
    rewrite Hnil in Hin. by apply elem_of_nil in Hin.
  - intros o (r & Hr & <-)%Ho Hne. unfold ResultsPage.setFilter.
    cbn [ResultsPage.result ResultsPage.filteredResults ResultsPage.filter].
    rewrite applyFilters_enabled. intros Hnil.
    assert (r ∈ List.filter
                  (Spec.enabled
                     {| ResultsPage.Filter.significant := false;
                        ResultsPage.Filter.moderator := "";
                        ResultsPage.Filter.outcome := InteractionResult.outcome r |})
                  (AnalysisResult.results res)) as Hin.
    { rewrite list_elem_of_In, filter_In, <- list_elem_of_In. split; [done|].
      unfold Spec.enabled; simpl. apply truthy_true in Hne. rewrite Hne.
      by rewrite String.eqb_refl. }
    rewrite Hnil in Hin. by apply elem_of_nil in Hin.
Qed.

End filter_options.

(** *** Filters one after another *)

(** X16. Filters do not accumulate: the rows shown depend on the loaded
    result and on the current filter only, so a filter set after another
    replaces it, and applying the filters again changes nothing. *)
Theorem filters_do_not_accumulate (st : ResultsPage.State)
    (f1 f2 : ResultsPage.Filter.t) :
  ResultsPage.setFilter f2 (ResultsPage.setFilter f1 st) = ResultsPage.setFilter f2 st ∧
  ResultsPage.applyFilters (ResultsPage.applyFilters st) = ResultsPage.applyFilters st ∧
  ResultsPage.click_reset (ResultsPage.setFilter f1 st) = ResultsPage.click_reset st.
Proof.
  unfold ResultsPage.click_reset, ResultsPage.setFilter, ResultsPage.applyFilters.
  destruct st as [[res|] shown f]; simpl; done.
Qed.

(** X17. With the significant filter on, the rows shown are the
    significant results filtered by the selected moderator and outcome:
    a subsequence of them, so no more rows than the count of significant
    results displayed. *)
Theorem significant_filter_within_count (res : AnalysisResult.t)
    (shown : list InteractionResult.t) (m o : string) :
  let st := {| ResultsPage.result := Some res;
               ResultsPage.filteredResults := shown;
               ResultsPage.filter :=
                 {| ResultsPage.Filter.significant := true;
                    ResultsPage.Filter.moderator := m;
                    ResultsPage.Filter.outcome := o |} |} in
  ResultsPage.filteredResults (ResultsPage.applyFilters st) =
    List.filter
      (Spec.enabled {| ResultsPage.Filter.significant := false;
                       ResultsPage.Filter.moderator := m;
                       ResultsPage.Filter.outcome := o |})
      (ResultsPage.significantResults res) ∧
  sublist (ResultsPage.filteredResults (ResultsPage.applyFilters st))
    (ResultsPage.significantResults res) ∧
  (length (ResultsPage.filteredResults (ResultsPage.applyFilters st))
     ≤ length (ResultsPage.significantResults res))%nat.
Proof.
  intros st.
  assert (ResultsPage.filteredResults (ResultsPage.applyFilters st) =
          List.filter
            (Spec.enabled {| ResultsPage.Filter.significant := false;
                             ResultsPage.Filter.moderator := m;
                             ResultsPage.Filter.outcome := o |})
            (ResultsPage.significantResults res)) as Heq.
  { subst st. rewrite applyFilters_enabled.
    unfold ResultsPage.significantResults. rewrite filter_filter.
    apply filter_ext. intros r. unfold Spec.enabled; simpl.
    by rewrite andb_assoc. }
  rewrite Heq. split_and!; [done | apply filter_sublist |].
  apply sublist_length, filter_sublist.
Qed.

(** *** Loading the results *)

Section load_results.
Context `{!JSON UploadResponse.t}.

(** X18. With a job id in storage, [loadResults] asks for the result and
    then for the figure list of that job.  A rejected result request
    sends the user back to the analysis page with nothing loaded and no
    figure request; a rejected figure request sends the user back as
    well, although the result is loaded and shown in full; when both are
    fulfilled the page stays, and its figures are the names listed, or
    none when the answer has no list. *)
Theorem loadResults_chain (b : Browser.t) (id : string) :
  AnalysisPage.stored_job_id b = Some (Some id) →
  id ≠ "" →
  let w1 := ResultsPage.loadResults (ResultsPage.start b) in
  ResultsPage.sent w1 = [Api.getAnalysisResult id] ∧
  ResultsPage.browser w1 = b ∧
  (∀ detail, ∃ w2,
     ResultsPage.result_settled (Api.Rejected detail) w1 = Some w2 ∧
     Browser.location (ResultsPage.browser w2) = "/analysis" ∧
     ResultsPage.result (ResultsPage.state w2) = None ∧
     ResultsPage.sent w2 = [Api.getAnalysisResult id] ∧
     ∀ r, ResultsPage.figures_settled r w2 = None) ∧
  (∀ res, ∃ w2,
     ResultsPage.result_settled (Api.Fulfilled res) w1 = Some w2 ∧
     ResultsPage.result (ResultsPage.state w2) = Some res ∧
     ResultsPage.filteredResults (ResultsPage.state w2) = AnalysisResult.results res ∧
     ResultsPage.sent w2 = [Api.getAnalysisResult id; Api.getFigureList id] ∧
     ResultsPage.browser w2 = b ∧
     (∀ detail, ∃ w3,
        ResultsPage.figures_settled (Api.Rejected detail) w2 = Some w3 ∧
        Browser.location (ResultsPage.browser w3) = "/analysis" ∧
        ResultsPage.result (ResultsPage.state w3) = Some res ∧
        ResultsPage.figures w3 = []) ∧
     (∀ figureList, ∃ w3,
        ResultsPage.figures_settled (Api.Fulfilled figureList) w2 = Some w3 ∧
        ResultsPage.browser w3 = b ∧
        ResultsPage.result (ResultsPage.state w3) = Some res ∧
        ResultsPage.figures w3 =
          default [] (map ResultsPage.Figure.name <$> ResultsPage.FigureList.figures figureList))).
Proof.
  intros Hid Hne w1. subst w1. unfold ResultsPage.loadResults.
  cbn [ResultsPage.start ResultsPage.browser]. rewrite Hid.
  apply truthy_true in Hne. rewrite Hne.
  split_and!; try done.
  - intros detail. eexists. split_and!; done.
  - intros res. eexists. split_and!; try done.
    + intros detail. eexists. split_and!; done.
    + intros figureList. eexists. split_and!; try done.
      by destruct (ResultsPage.FigureList.figures figureList).
Qed.

End load_results.

(** ** The properties on concrete data *)

#[local] Existing Instance settings_codec.
#[local] Existing Instance upload_codec.

(** The reference codec gives back the sample values. *)
Example sample_values_survive :
  survives stringify Sample.settings ∧
  survives stringify_indent2 Sample.settings ∧
  survives stringify Sample.upload.
Proof. split_and!; vm_compute; reflexivity. Qed.

Example sample_default_mapping :
  AnalysisSettings.variable_mapping Sample.settings =
    {| VariableMapping.moderators := ["B"; "C"];
       VariableMapping.outcomes := ["G"; "H"];
       VariableMapping.intervention := "S" |}.
Proof. reflexivity. Qed.

Example sample_encodeURIComponent :
  encodeURIComponent "{a: [1, 2]}" = "%7Ba%3A%20%5B1%2C%202%5D%7D".
Proof. reflexivity. Qed.

Example sample_run :
  AnalysisPage.run Sample.until_cancel_click Sample.world
    = Some Sample.awaiting_cancel ∧
  AnalysisPage.step Sample.cancel_succeeds Sample.awaiting_cancel
    = Some Sample.cancelled ∧
  AnalysisPage.sent Sample.cancelled =
    [Api.runAnalysis {| AnalysisRequest.job_id := Some "job-1";
                        AnalysisRequest.settings := Sample.settings |};
     Api.getJobStatus "job-1"; Api.cancelJob "job-1"].
Proof. split_and!; vm_compute; reflexivity. Qed.

(** C1, on the code: 'cancelled' is one of the five states of the
    specification and none of the four of [AnalysisStatus]; in the sample
    run the job status the page holds after the cancellation succeeded is
    'running'. *)
Lemma status_domain_lacks_cancelled :
  "cancelled" ∈ Spec.status_domain ∧
  length Spec.status_domain = 5%nat ∧
  length AnalysisStatus_all = 4%nat ∧
  ("cancelled" ∉ map AnalysisStatus_literal AnalysisStatus_all) ∧
  AnalysisPage.shown_status Sample.cancelled = Some "running".
Proof.
  split_and!; [set_solver | done | done | | vm_compute; reflexivity].
  rewrite list_elem_of_In. simpl. intros [H|[H|[H|[H|[]]]]]; discriminate H.
Qed.

(** C2, on the code: with [fdr_alpha = 0.1] configured, a pair with
    [q_interaction = 0.07] is below the configured level and is neither
    counted, kept by the significant-only filter, highlighted nor
    marked. *)
Lemma significance_ignores_fdr_alpha :
  let s := SettingsPage.settings Sample.lenient in
  let row := Sample.row "B" "G" 0.07 in
  Spec.in_declared_ranges s ∧
  Spec.significant_at (AnalysisSettings.fdr_alpha s) row ∧
  ResultsPage.significantResults (Sample.analysis [row]) = [] ∧
  ResultsPage.filteredResults
    (ResultsPage.setFilter
       {| ResultsPage.Filter.significant := true;
          ResultsPage.Filter.moderator := "";
          ResultsPage.Filter.outcome := "" |}
       (ResultsPage.setResult (Sample.analysis [row]) ResultsPage.initial)) = [] ∧
  ResultsPage.row_className row = "" ∧
  ResultsPage.getSignificanceText (InteractionResult.q_interaction row) = "ns".
Proof. by vm_compute. Qed.

(** C3, on the code: after the user ticked column [B] as an outcome too,
    selected it as the intervention and typed numbers out of range,
    [handleNext] stores the settings and navigates to the analysis page,
    although the roles overlap and every range is violated. *)
Lemma handleNext_accepts_overlapping_roles :
  let s := SettingsPage.settings Sample.overlapping in
  let b := SettingsPage.handleNext Sample.overlapping (Sample.browser "/settings") in
  Browser.location b = "/analysis" ∧
  Browser.getItem "analysisSettings" b = Some (stringify s) ∧
  Browser.toasts b = [] ∧
  "B" ∈ VariableMapping.moderators (AnalysisSettings.variable_mapping s) ∧
  "B" ∈ VariableMapping.outcomes (AnalysisSettings.variable_mapping s) ∧
  VariableMapping.intervention (AnalysisSettings.variable_mapping s) = "B" ∧
  AnalysisSettings.fdr_alpha s = 0.9%Q ∧
  AnalysisSettings.min_sample_size s = 0%Z ∧
  AnalysisSettings.max_plots s = (-1)%Z ∧
  ¬ Spec.roles_disjoint (AnalysisSettings.variable_mapping s) ∧
  ¬ Spec.in_declared_ranges s ∧
  ¬ Spec.no_configuration_error s.
Proof.
  intros s b.
  assert ("B" ∈ VariableMapping.moderators (AnalysisSettings.variable_mapping s))
    as Hm by (apply list_elem_of_In; vm_compute; tauto).
  assert ("B" ∈ VariableMapping.outcomes (AnalysisSettings.variable_mapping s))
    as Ho by (apply list_elem_of_In; vm_compute; tauto).
  assert (¬ Spec.roles_disjoint (AnalysisSettings.variable_mapping s)) as Hroles.
  { intros (Hdisjoint & _ & _). by apply (Hdisjoint "B"). }
  split_and!; try done.
  - intros (Hpos & Hle & _). by vm_compute in Hle.
  - intros (_ & _ & _ & Hdisjoint & _). done.
Qed.

(** C4, on the code: in the sample run the cancellation is requested
    while the job is running and the cancel call succeeds; from then on,
    short of a new start, the status the page holds is 'running' or none,
    and never 'cancelled'. *)
Lemma cancel_leaves_status_running :
  AnalysisPage.run (Sample.until_cancel_click ++ [Sample.cancel_succeeds]) Sample.world
    = Some Sample.cancelled ∧
  AnalysisPage.shown_status Sample.cancelled = Some "running" ∧
  ∀ es w',
    forallb (negb ∘ AnalysisPage.restart) es = true →
    AnalysisPage.run es Sample.cancelled = Some w' →
    AnalysisPage.shown_status w' ≠ Some "cancelled".
Proof.
  split; [vm_compute; reflexivity|]. split; [vm_compute; reflexivity|].
  intros es w' Hall Hrun.
  assert (AnalysisPage.quiescent Sample.cancelled) as Hq by by vm_compute.
  assert (AnalysisPage.shown_status Sample.cancelled = Some "running") as Hshown
    by (vm_compute; reflexivity).
  destruct (quiescent_run es _ _ Hall Hq Hrun) as [-> | ->]; [by rewrite Hshown | done].
Qed.

(** A status request sent before the cancel call settled may settle after
    it, and then writes the progress once more. *)
Example late_poll_writes_progress :
  let until_cancelled :=
    [AnalysisPage.ClickStart;
     AnalysisPage.StartSettled (Api.Fulfilled (Sample.job "pending" 0));
     AnalysisPage.IntervalTick;
     AnalysisPage.ClickCancel;
     Sample.cancel_succeeds] in
  let late := AnalysisPage.PollSettled (Api.Fulfilled (Sample.job "running" 0.5)) in
  (AnalysisPage.progress ∘ AnalysisPage.page) <$>
    AnalysisPage.run until_cancelled Sample.world = Some 0%Q ∧
  (AnalysisPage.polls_in_flight <$>
    AnalysisPage.run until_cancelled Sample.world) = Some 1%nat ∧
  (AnalysisPage.progress ∘ AnalysisPage.page) <$>
    AnalysisPage.run (until_cancelled ++ [late]) Sample.world = Some (0.5 * 100)%Q.
Proof. split_and!; vm_compute; reflexivity. Qed.

(** The hypothesis of [cancel_stops_polling] holds in the sample run. *)
Lemma cancel_stops_polling_witness :
  AnalysisPage.isRunning (AnalysisPage.page Sample.cancelled) = false ∧
  AnalysisPage.jobStatus (AnalysisPage.page Sample.cancelled)
    = AnalysisPage.jobStatus (AnalysisPage.page Sample.awaiting_cancel) ∧
  AnalysisPage.step AnalysisPage.IntervalTick Sample.cancelled = None.
Proof.
  destruct (cancel_stops_polling Sample.awaiting_cancel Sample.cancelled)
    as (Hstop & Hjob & _ & Htick & _).
  - vm_compute; reflexivity.
  - split; [exact Hstop|]. split; [exact Hjob | exact Htick].
Defined.

(** The hypotheses of [submit_sends_request_and_stores_status] hold in
    the sample world. *)
Lemma submit_sends_request_witness :
  ∃ w1,
    AnalysisPage.step AnalysisPage.ClickStart Sample.world = Some w1 ∧
    AnalysisPage.sent w1 =
      [Api.runAnalysis {| AnalysisRequest.job_id := Some "job-1";
                          AnalysisRequest.settings := Sample.settings |}] ∧
    ∃ w2,
      AnalysisPage.step
        (AnalysisPage.StartSettled (Api.Fulfilled (Sample.job "pending" 0))) w1
        = Some w2 ∧
      AnalysisPage.jobStatus (AnalysisPage.page w2) = Some (Sample.job "pending" 0).
Proof.
  destruct (submit_sends_request_and_stores_status
              Sample.world Sample.settings (Some "job-1"))
    as (w1 & Hstep & Hsent & Hsettled).
  - reflexivity.
  - reflexivity.
  - vm_compute; reflexivity.
  - exists w1. split; [exact Hstep|]. split; [exact Hsent|].
    destruct (Hsettled (Sample.job "pending" 0)) as (w2 & Hstep2 & Hjob & _).
    exists w2. split; [exact Hstep2 | exact Hjob].
Defined.

(** The hypotheses of [settings_round_trip] hold for the sample
    settings. *)
Lemma settings_round_trip_witness :
  SettingsPage.settings
    (SettingsPage.handleLoadSettings SettingsPage.initial
       (SettingsPage.handleSaveSettings Sample.mounted (Sample.browser "/settings"))).1
  = Sample.settings ∧
  ∃ href content,
    Browser.downloads
      (SettingsPage.handleExportSettings Sample.mounted (Sample.browser "/settings"))
      = [("analysis_settings.json", href)] ∧
    data_url_body href = Some content ∧
    SettingsPage.settings
      (SettingsPage.handleImportSettings (Some content) SettingsPage.initial
         (Sample.browser "/settings")).1
    = Sample.settings.
Proof.
  destruct (settings_round_trip Sample.mounted (Sample.browser "/settings"))
    as (Hload & href & content & Hdownload & Hbody & Himport).
  - vm_compute; reflexivity.
  - vm_compute; reflexivity.
  - split; [exact (Hload SettingsPage.initial)|].
    exists href, content. split; [exact Hdownload|]. split; [exact Hbody|].
    exact (Himport SettingsPage.initial (Sample.browser "/settings")).
Defined.

(** ** The further properties on concrete data *)

Module SampleRun.

(** The sample world once the start button was clicked, then once the
    start call was fulfilled and a first status request was sent, then
    once that request was fulfilled. *)
Definition started : AnalysisPage.World :=
  default Sample.world (AnalysisPage.run [AnalysisPage.ClickStart] Sample.world).

Definition polling : AnalysisPage.World :=
  default Sample.world
    (AnalysisPage.run
       [AnalysisPage.StartSettled (Api.Fulfilled (Sample.job "pending" 0));
        AnalysisPage.IntervalTick] started).


(** Two clicks on cancel while the start call is awaited. *)
Definition cancel_clicked : AnalysisPage.World :=
  default Sample.world
    (AnalysisPage.run [AnalysisPage.ClickCancel; AnalysisPage.ClickCancel] started).

Definition start_rejected : AnalysisPage.World :=
  default Sample.world
    (AnalysisPage.step (AnalysisPage.StartSettled (Api.Rejected "busy")) started).

Definition cancel_rejected : AnalysisPage.World :=
  default Sample.world
    (AnalysisPage.step (AnalysisPage.CancelSettled (Api.Rejected "gone"))
       Sample.awaiting_cancel).

(** The browser an upload of [Sample.upload] leaves. *)
Definition uploaded : Browser.t :=
  (UploadPage.upload_settled (Api.Fulfilled Sample.upload) UploadPage.initial
     (Sample.browser "/")).2.

(** The analysis page about to mount after [handleNext]. *)
Definition arriving : AnalysisPage.World :=
  {| AnalysisPage.page := AnalysisPage.initial;
     AnalysisPage.browser :=
       SettingsPage.handleNext Sample.mounted (Sample.browser "/settings");
     AnalysisPage.sent := [];
     AnalysisPage.starts_in_flight := 0;
     AnalysisPage.polls_in_flight := 0;
     AnalysisPage.cancels_in_flight := 0 |}.

End SampleRun.

Example sample_moderators_NoDup :
  NoDup (VariableMapping.moderators
           (AnalysisSettings.variable_mapping (SettingsPage.settings Sample.mounted))).
Proof. apply (bool_decide_unpack _). vm_compute. reflexivity. Qed.

Example sample_filter_options :
  @ResultsPage.moderators byte_order_sort
    (Sample.analysis [Sample.row "C" "G" 0.2; Sample.row "B" "H" 0.01;
                      Sample.row "C" "H" 0.04]) = ["B"; "C"] ∧
  @ResultsPage.outcomes byte_order_sort
    (Sample.analysis [Sample.row "C" "G" 0.2; Sample.row "B" "H" 0.01;
                      Sample.row "C" "H" 0.04]) = ["G"; "H"].
Proof. split; vm_compute; reflexivity. Qed.

(** The hypothesis of [click_moderator_flips] holds for the sample page. *)
Lemma click_moderator_flips_witness :
  NoDup (VariableMapping.moderators
           (AnalysisSettings.variable_mapping
              (SettingsPage.settings (SettingsPage.click_moderator "B" Sample.mounted)))) ∧
  "C" ∈ VariableMapping.moderators
          (AnalysisSettings.variable_mapping
             (SettingsPage.settings (SettingsPage.click_moderator "B" Sample.mounted))).
Proof.
  destruct (click_moderator_flips "B" Sample.mounted sample_moderators_NoDup)
    as (Hnodup & _ & Hothers & _).
  split; [exact Hnodup|].
  apply (Hothers "C"); [discriminate|].
  apply list_elem_of_In. vm_compute. tauto.
Defined.

(** The hypothesis of [click_moderator_twice] holds for the sample page. *)
Lemma click_moderator_twice_witness :
  VariableMapping.moderators
    (AnalysisSettings.variable_mapping
       (SettingsPage.settings
          (SettingsPage.click_moderator "B"
             (SettingsPage.click_moderator "B" Sample.mounted))))
  ≡ₚ ["B"; "C"].
Proof.
  destruct (click_moderator_twice "B" Sample.mounted sample_moderators_NoDup)
    as [Hperm _].
  exact Hperm.
Defined.

(** The hypotheses of [mounted_defaults_accepted] hold on the browser the
    sample upload leaves. *)
Lemma mounted_defaults_accepted_witness :
  ∃ st',
    SettingsPage.on_mount SettingsPage.initial SampleRun.uploaded
      = Some (st', SampleRun.uploaded) ∧
    SettingsPage.uploadResult st' = Some Sample.upload.
Proof.
  destruct (mounted_defaults_accepted SettingsPage.initial SampleRun.uploaded
              (stringify Sample.upload) Sample.upload)
    as (st' & Hmount & Hresult & _).
  - vm_compute; reflexivity.
  - vm_compute; reflexivity.
  - exists st'. split; [exact Hmount | exact Hresult].
Defined.

(** The hypotheses of [handleNext_hands_settings_over] hold for the
    sample page. *)
Lemma handleNext_hands_settings_over_witness :
  AnalysisPage.on_mount SampleRun.arriving =
    Some (AnalysisPage.on_page (AnalysisPage.setSettings (Some Sample.settings))
            SampleRun.arriving).
Proof.
  apply (handleNext_hands_settings_over Sample.mounted (Sample.browser "/settings")).
  - discriminate.
  - discriminate.
  - discriminate.
  - vm_compute; reflexivity.
  - reflexivity.
Defined.

(** The hypothesis of [upload_hands_result_over] holds for the sample
    upload. *)
Lemma upload_hands_result_over_witness :
  Browser.location SampleRun.uploaded = "/settings" ∧
  AnalysisPage.stored_job_id SampleRun.uploaded = Some (Some "job-1").
Proof.
  destruct (upload_hands_result_over UploadPage.initial (Sample.browser "/")
              Sample.upload) as (Hlocation & _ & Hjob).
  - vm_compute; reflexivity.
  - split; [exact Hlocation | exact Hjob].
Defined.


(** The hypothesis of [failing_polls_retry] holds while the sample job
    runs. *)
Lemma failing_polls_retry_witness :
  ∃ w',
    AnalysisPage.run (concat (replicate 3 (failing_poll "timeout")))
      Sample.awaiting_cancel = Some w' ∧
    AnalysisPage.page w' = AnalysisPage.page Sample.awaiting_cancel.
Proof.
  destruct (failing_polls_retry Sample.awaiting_cancel "job-1" "timeout" 3)
    as (w' & Hrun & Hpage & _).
  - vm_compute; reflexivity.
  - exists w'. split; [exact Hrun | exact Hpage].
Defined.

(** The hypothesis of [cancel_rejected_keeps_running] holds in the sample
    run. *)
Lemma cancel_rejected_keeps_running_witness :
  AnalysisPage.page SampleRun.cancel_rejected
    = AnalysisPage.page Sample.awaiting_cancel.
Proof.
  destruct (cancel_rejected_keeps_running Sample.awaiting_cancel
              SampleRun.cancel_rejected "gone") as (Hpage & _).
  - vm_compute; reflexivity.
  - exact Hpage.
Defined.

(** The hypotheses of [pending_start_is_exclusive] hold once the sample
    job was started. *)
Lemma pending_start_is_exclusive_witness :
  SampleRun.cancel_clicked = SampleRun.started.
Proof.
  apply (pending_start_is_exclusive SampleRun.started SampleRun.cancel_clicked
           [AnalysisPage.ClickCancel; AnalysisPage.ClickCancel]);
    vm_compute; reflexivity.
Defined.

(** The hypothesis of [start_rejected_can_start_again] holds in the
    sample run. *)
Lemma start_rejected_can_start_again_witness :
  AnalysisPage.isRunning (AnalysisPage.page SampleRun.start_rejected) = false ∧
  AnalysisPage.sent SampleRun.start_rejected = AnalysisPage.sent SampleRun.started.
Proof.
  destruct (start_rejected_can_start_again SampleRun.started
              SampleRun.start_rejected "busy") as (Hstop & _ & _ & Hsent & _).
  - vm_compute; reflexivity.
  - split; [exact Hstop | exact Hsent].
Defined.

(** The hypotheses of [loadResults_chain] hold on the browser of the
    sample world. *)
Lemma loadResults_chain_witness :
  ResultsPage.sent
    (ResultsPage.loadResults (ResultsPage.start (AnalysisPage.browser Sample.world)))
  = [Api.getAnalysisResult "job-1"].
Proof.
  destruct (loadResults_chain (AnalysisPage.browser Sample.world) "job-1")
    as (Hsent & _).
  - vm_compute; reflexivity.
  - discriminate.
  - exact Hsent.
Defined.
